(** * Tenant-question assignment and response threading

    A shallow embedding of the server side of the questionnaire
    application: the relational schema ([shared/schema.ts]), the
    repository layer ([server/storage.ts]), the local file storage
    ([server/file-storage.ts]) and the request handlers of
    [registerRoutes] ([server/routes.ts]).

    Tables are lists of rows in insertion order with an auto-increment
    counter; handlers are state transformers that may throw, exactly like
    the [async] functions they embed: an exception leaves the writes made
    so far in place (the source opens no transaction). *)

From Stdlib Require Import ZArith String Ascii List Lia Bool.
From stdpp Require Import base option list sorting strings pretty gmap.
Import ListNotations.

Local Open Scope string_scope.
Local Open Scope list_scope.
Local Open Scope Z_scope.

(** ** JavaScript values and exceptions *)

(** A JSON value as it reaches a handler in [req.body].  Numbers are
    restricted to integers; arrays and objects are lumped together. *)
Inductive JsVal :=
| JUndefined
| JNull
| JBool (b : bool)
| JNum (n : Z)
| JStr (s : string)
| JOther.

#[global] Instance JsVal_eq_dec : EqDecision JsVal.
Proof. solve_decision. Defined.

(** What a handler can throw. *)
Inductive Error :=
| JsError (message : string)        (* new Error(message) *)
| TypeError (message : string)      (* property access on null, call of undefined *)
| ReferenceError (message : string) (* use of a name that nothing declares *)
| MulterError (code : string)       (* raised by the upload middleware *)
| DbError (constraint : string)     (* rejected by the relational store *)
| FsError (code : string).          (* raised by fs.readFile *)

#[global] Instance Error_eq_dec : EqDecision Error.
Proof. solve_decision. Defined.

Definition MethodNotImplemented : Error := JsError "Method not implemented.".

(** [const [result] = await db.insert(table).values(v)]: storage.ts
    builds [db] with [drizzle-orm/node-postgres], whose insert resolves to
    the driver's query result, an object that is not iterable.  The
    destructuring throws once the insert has been carried out; the
    wording of the message is the engine's. *)
Definition NotIterable : Error := TypeError "(intermediate value) is not iterable".

(** Milliseconds since the epoch, as [Date.getTime()] gives them. *)
Definition Time := Z.

(** ** The schema (shared/schema.ts) *)

Module User.
Record t := mk {
  id : Z;
  username : string;
  password : string;
  email : string;
  fullName : string;
  role : string;
  tenantId : option Z;
  createdAt : Time
}.
End User.

Module InsertUser.
Record t := mk {
  username : string;
  password : string;
  email : string;
  fullName : string;
  role : option string;
  tenantId : option Z
}.
End InsertUser.

Module Tenant.
Record t := mk {
  id : Z;
  name : string;
  description : option string;
  industry : option string;
  createdAt : Time
}.
End Tenant.

Module Domain.
Record t := mk {
  id : Z;
  name : string;
  description : option string;
  icon : option string
}.
End Domain.

Module Question.
Record t := mk {
  id : Z;
  title : string;
  description : option string;
  domainId : Z;
  required : option bool;
  tags : option string;
  createdAt : Time;
  updatedAt : Time
}.
End Question.

Module TenantQuestion.
Record t := mk {
  id : Z;
  tenantId : Z;
  questionId : Z;
  status : option string;
  lastUpdated : Time
}.
End TenantQuestion.

(** The object handed to [createTenantQuestion].  [status] is optional in
    the insert schema (the column has a default) and nullable (the column
    is not [notNull]): [None] is an omitted field, [Some None] an explicit
    [null].  The assignment route passes [req.body] itself, which the
    schema check reads and does not strip, so the two remaining columns
    arrive when the request carries them: [id], [None] when the body has
    no such key, and [lastUpdated], [JUndefined] when it has none. *)
Module InsertTenantQuestion.
Record t := mk {
  tenantId : Z;
  questionId : Z;
  status : option (option string);
  id : option Z;
  lastUpdated : JsVal
}.
End InsertTenantQuestion.

Module Response.
Record t := mk {
  id : Z;
  tenantQuestionId : Z;
  userId : Z;
  content : string;
  createdAt : Time
}.
End Response.

Module InsertResponse.
Record t := mk {
  tenantQuestionId : Z;
  userId : Z;
  content : string
}.
End InsertResponse.

Module Attachment.
Record t := mk {
  id : Z;
  responseId : Z;
  filename : string;
  originalName : string;
  mimeType : string;
  size : Z;
  createdAt : Time
}.
End Attachment.

Module InsertAttachment.
Record t := mk {
  responseId : Z;
  filename : string;
  originalName : string;
  mimeType : string;
  size : Z
}.
End InsertAttachment.

(** ** The state: tables, upload directory, mail log *)

(** A table with a [primaryKey().autoincrement()] column. *)
Record Table (A : Type) := mkTable {
  rows : list A;
  autoIncrement : Z
}.
Arguments mkTable {A} _ _.
Arguments rows {A} _.
Arguments autoIncrement {A} _.

Inductive NotificationKind := QuestionUpdated | ResponseAdded | FileUploaded.

(** One call of the console mail service (server/email.ts). *)
Record Email := mkEmail {
  kind : NotificationKind;
  to : string;
  questionTitle : string;
  questionId : Z;
  fileName : option string
}.

Record State := mkState {
  users : Table User.t;
  tenants : Table Tenant.t;
  domains : Table Domain.t;
  questions : Table Question.t;
  tenantQuestions : Table TenantQuestion.t;
  responses : Table Response.t;
  attachments : Table Attachment.t;
  uploads : gmap string (list Byte.byte);   (* files of the uploads directory *)
  outbox : list Email
}.

Definition set_users (f : Table User.t -> Table User.t) (st : State) : State :=
  mkState (f (users st)) (tenants st) (domains st) (questions st)
          (tenantQuestions st) (responses st) (attachments st) (uploads st) (outbox st).

Definition set_tenantQuestions
    (f : Table TenantQuestion.t -> Table TenantQuestion.t) (st : State) : State :=
  mkState (users st) (tenants st) (domains st) (questions st)
          (f (tenantQuestions st)) (responses st) (attachments st) (uploads st) (outbox st).

Definition set_responses (f : Table Response.t -> Table Response.t) (st : State) : State :=
  mkState (users st) (tenants st) (domains st) (questions st)
          (tenantQuestions st) (f (responses st)) (attachments st) (uploads st) (outbox st).

Definition set_uploads
    (f : gmap string (list Byte.byte) -> gmap string (list Byte.byte)) (st : State) : State :=
  mkState (users st) (tenants st) (domains st) (questions st)
          (tenantQuestions st) (responses st) (attachments st) (f (uploads st)) (outbox st).

Definition set_outbox (f : list Email -> list Email) (st : State) : State :=
  mkState (users st) (tenants st) (domains st) (questions st)
          (tenantQuestions st) (responses st) (attachments st) (uploads st) (f (outbox st)).

(** ** Computations that read and write the state and may throw *)

Inductive Result (A : Type) :=
| Ok (a : A)
| Throw (e : Error).
Arguments Ok {A} _.
Arguments Throw {A} _.

Definition M (A : Type) : Type := State -> Result A * State.

Definition ret {A} (a : A) : M A := fun st => (Ok a, st).
Definition throw {A} (e : Error) : M A := fun st => (Throw e, st).
Definition bind {A B} (c : M A) (k : A -> M B) : M B :=
  fun st =>
    match c st with
    | (Ok a, st') => k a st'
    | (Throw e, st') => (Throw e, st')
    end.
Definition gets {A} (f : State -> A) : M A := fun st => (Ok (f st), st).
Definition modify (f : State -> State) : M unit := fun st => (Ok tt, f st).

Notation "x <~ c ;; k" := (bind c (fun x => k))
  (at level 100, c at next level, right associativity).
Notation "c ;;; k" := (bind c (fun _ => k))
  (at level 100, right associativity).

(** [for (const x of xs) { await body(x) }] *)
Fixpoint forEach {A} (xs : list A) (body : A -> M unit) : M unit :=
  match xs with
  | [] => ret tt
  | x :: xs' => body x ;;; forEach xs' body
  end.

(** [await Promise.all(xs.map(async x => f(x)))] for callbacks that only
    read: the results in order, or the first rejection. *)
Fixpoint mapM {A B} (f : A -> M B) (xs : list A) : M (list B) :=
  match xs with
  | [] => ret []
  | x :: xs' => y <~ f x ;; ys <~ mapM f xs' ;; ret (y :: ys)
  end.

(** ** Repository layer (server/storage.ts) *)

(** [const [row] = await db.select()...where(p); return row || null] *)
Definition first_where {A} (p : A -> bool) (t : Table A) : option A :=
  head (List.filter p (rows t)).

(** [db.insert(table).values(v)]: the row gets the next auto-increment id
    and is appended. *)
Definition insert_row {A} (mkRow : Z -> A) (t : Table A) : Table A :=
  mkTable (rows t ++ [mkRow (autoIncrement t)]) (autoIncrement t + 1).

(** The same when the values may name the id themselves: a given id is
    stored as it is and leaves the counter alone. *)
Definition insert_row_with_id {A} (id : option Z) (mkRow : Z -> A) (t : Table A) : Table A :=
  match id with
  | Some id => mkTable (rows t ++ [mkRow id]) (autoIncrement t)
  | None => insert_row mkRow t
  end.

(** [{ ...values, id: result.insertId }]: what the [create*] methods
    are written to return, the values handed in and the new id. *)
Record Inserted (A : Type) := mkInserted {
  values : A;
  insertId : Z
}.
Arguments mkInserted {A} _ _.
Arguments values {A} _.
Arguments insertId {A} _.

Definition getUser (id : Z) (st : State) : option User.t :=
  first_where (fun u => bool_decide (User.id u = id)) (users st).

Definition getUserByUsername (username : string) (st : State) : option User.t :=
  first_where (fun u => bool_decide (User.username u = username)) (users st).

Definition getUsersByTenant (tenantId : Z) (st : State) : list User.t :=
  List.filter (fun u => bool_decide (User.tenantId u = Some tenantId)) (rows (users st)).

Definition getTenant (id : Z) (st : State) : option Tenant.t :=
  first_where (fun t => bool_decide (Tenant.id t = id)) (tenants st).

Definition getQuestion (id : Z) (st : State) : option Question.t :=
  first_where (fun q => bool_decide (Question.id q = id)) (questions st).

Definition getAllQuestions (st : State) : list Question.t := rows (questions st).

Definition getTenantQuestion (id : Z) (st : State) : option TenantQuestion.t :=
  first_where (fun tq => bool_decide (TenantQuestion.id tq = id)) (tenantQuestions st).

Definition getTenantQuestionByIds (tenantId questionId : Z) (st : State)
  : option TenantQuestion.t :=
  first_where
    (fun tq => bool_decide (TenantQuestion.tenantId tq = tenantId)
               && bool_decide (TenantQuestion.questionId tq = questionId))
    (tenantQuestions st).

Definition getResponse (id : Z) (st : State) : option Response.t :=
  first_where (fun r => bool_decide (Response.id r = id)) (responses st).

Definition getResponsesByTenantQuestion (tenantQuestionId : Z) (st : State)
  : list Response.t :=
  List.filter (fun r => bool_decide (Response.tenantQuestionId r = tenantQuestionId))
              (rows (responses st)).

(** The [references(...)] clauses of the schema: the store rejects a row
    whose foreign key names no row of the referenced table. *)
Definition tenant_exists (id : Z) (st : State) : bool :=
  bool_decide (is_Some (getTenant id st)).
Definition question_exists (id : Z) (st : State) : bool :=
  bool_decide (is_Some (getQuestion id st)).
Definition user_exists (id : Z) (st : State) : bool :=
  bool_decide (is_Some (getUser id st)).
Definition tenantQuestion_exists (id : Z) (st : State) : bool :=
  bool_decide (is_Some (getTenantQuestion id st)).

(** [createUser] asks for the stored row ([returning()]) and returns it. *)
Definition createUser (now : Time) (user : InsertUser.t) : M User.t :=
  fun st =>
    if bool_decide (is_Some (getUserByUsername (InsertUser.username user) st))
    then (Throw (DbError "users.username unique"), st)
    else if match InsertUser.tenantId user with
            | Some t => negb (tenant_exists t st)
            | None => false
            end
    then (Throw (DbError "users.tenant_id references tenants.id"), st)
    else
      let row id :=
        User.mk id (InsertUser.username user) (InsertUser.password user)
                (InsertUser.email user) (InsertUser.fullName user)
                (default "Customer" (InsertUser.role user))
                (InsertUser.tenantId user) now in
      (Ok (row (autoIncrement (users st))), set_users (insert_row row) st).

(** The insert is carried out, and the method then throws at its
    destructuring.  A [lastUpdated] of the body is no [Date], which the
    timestamp column needs to encode it; the store rejects an id that is
    taken and a foreign key that names no row. *)
Definition createTenantQuestion (now : Time) (tenantQuestion : InsertTenantQuestion.t)
  : M (Inserted InsertTenantQuestion.t) :=
  fun st =>
    match InsertTenantQuestion.lastUpdated tenantQuestion with
    | JUndefined =>
      let id := default (autoIncrement (tenantQuestions st))
                        (InsertTenantQuestion.id tenantQuestion) in
      if tenantQuestion_exists id st
      then (Throw (DbError "tenant_questions.id primary key"), st)
      else if negb (tenant_exists (InsertTenantQuestion.tenantId tenantQuestion) st)
      then (Throw (DbError "tenant_questions.tenant_id references tenants.id"), st)
      else if negb (question_exists (InsertTenantQuestion.questionId tenantQuestion) st)
      then (Throw (DbError "tenant_questions.question_id references questions.id"), st)
      else
        let row id :=
          TenantQuestion.mk id
            (InsertTenantQuestion.tenantId tenantQuestion)
            (InsertTenantQuestion.questionId tenantQuestion)
            (default (Some "Unanswered") (InsertTenantQuestion.status tenantQuestion))
            now in
        (Throw NotIterable,
         set_tenantQuestions
           (insert_row_with_id (InsertTenantQuestion.id tenantQuestion) row) st)
    | JNull => (Throw (DbError "tenant_questions.last_updated not null"), st)
    | _ => (Throw (TypeError "value.toISOString is not a function"), st)
    end.

(** As [createTenantQuestion]: the row is stored, then the destructuring
    throws.  The route builds the values itself, so no id comes from the
    request. *)
Definition createResponse (now : Time) (response : InsertResponse.t)
  : M (Inserted InsertResponse.t) :=
  fun st =>
    if negb (tenantQuestion_exists (InsertResponse.tenantQuestionId response) st)
    then (Throw (DbError "responses.tenant_question_id references tenant_questions.id"), st)
    else if negb (user_exists (InsertResponse.userId response) st)
    then (Throw (DbError "responses.user_id references users.id"), st)
    else
      let row id :=
        Response.mk id (InsertResponse.tenantQuestionId response)
                    (InsertResponse.userId response)
                    (InsertResponse.content response) now in
      (Throw NotIterable, set_responses (insert_row row) st).

(** Attachment operations and dashboard data: the bodies in storage.ts
    are [throw new Error("Method not implemented.")]. *)
Definition createAttachment (attachment : InsertAttachment.t) : M Attachment.t :=
  throw MethodNotImplemented.
Definition getAttachment (id : Z) : M (option Attachment.t) :=
  throw MethodNotImplemented.
Definition getAttachmentsByResponse (responseId : Z) : M (list Attachment.t) :=
  throw MethodNotImplemented.
Definition deleteAttachment (id : Z) : M bool :=
  throw MethodNotImplemented.

Module DomainProgress.
Record t := mk {
  domain : Domain.t;
  answered : Z;
  total : Z;
  progress : Z
}.
End DomainProgress.

Module Progress.
Record t := mk {
  overallCompletion : Z;
  domainProgress : list DomainProgress.t;
  answered : Z;
  totalQuestions : Z
}.
End Progress.

Definition getTenantProgress (tenantId : Z) : M Progress.t :=
  throw MethodNotImplemented.

(** ** What a request handler answers *)

Inductive Reply (A : Type) :=
| Json (status : Z) (body : A)              (* res.status(s).json(body) *)
| Message (status : Z) (message : string)   (* res.status(s).json({ message }) *)
| Send (status : Z) (text : string)         (* res.status(s).send(text) *)
| NextError (e : Error).                    (* next(error) *)
Arguments Json {A} _ _.
Arguments Message {A} _ _.
Arguments Send {A} _ _.
Arguments NextError {A} _.

(** [try { ... } catch (error) { next(error) }] *)
Definition route {A} (c : M (Reply A)) : State -> Reply A * State :=
  fun st =>
    match c st with
    | (Ok r, st') => (r, st')
    | (Throw e, st') => (NextError e, st')
    end.

(** The status line of a reply, when the handler itself chose one. *)
Definition statusCode {A} (r : Reply A) : option Z :=
  match r with
  | Json s _ | Message s _ | Send s _ => Some s
  | NextError _ => None
  end.

(** ** Mail notifications (server/email.ts, the console service) *)

Definition sendResponseAddedNotification
    (user : User.t) (questionTitle : string) (questionId : Z) : M unit :=
  modify (set_outbox (fun o =>
    o ++ [mkEmail ResponseAdded (User.email user) questionTitle questionId None])).

Definition sendFileUploadedNotification
    (user : User.t) (questionTitle : string) (questionId : Z) (fileName : string) : M unit :=
  modify (set_outbox (fun o =>
    o ++ [mkEmail FileUploaded (User.email user) questionTitle questionId (Some fileName)])).

(** ** Request-body validation ([validateBody] with the drizzle-zod schemas) *)

(** The range of an [int] column. *)
Definition int32 (n : Z) : Prop := -2147483648 <= n <= 2147483647.

Module ResponseBody.
Record t := mk {
  tenantQuestionId : JsVal;
  userId : JsVal;
  content : JsVal
}.
End ResponseBody.

(** [insertResponseSchema.parse]: two numbers and a string.  The [text]
    column gives [z.string()], with no minimum length and no trimming.
    Later versions of the schema generator also bound the numbers to the
    range of the column ([int32]) and the string to its size; what is
    stated below about accepted bodies keeps within those bounds. *)
Definition insertResponseSchema_parse (body : ResponseBody.t) : option InsertResponse.t :=
  match ResponseBody.tenantQuestionId body, ResponseBody.userId body,
        ResponseBody.content body with
  | JNum tq, JNum u, JStr c => Some (InsertResponse.mk tq u c)
  | _, _, _ => None
  end.

(** ** Response routes *)

Module UserSummary.
Record t := mk {
  id : Z;
  fullName : string;
  role : string
}.
End UserSummary.

(** [user ? { id: user.id, fullName: user.fullName, role: user.role } : null] *)
Definition userSummary (user : option User.t) : option UserSummary.t :=
  (fun u => UserSummary.mk (User.id u) (User.fullName u) (User.role u)) <$> user.

Module ResponseWithDetails.
Record t := mk {
  response : Response.t;
  user : option UserSummary.t;
  attachments : list Attachment.t
}.
End ResponseWithDetails.

Module PostedResponse.
Record t := mk {
  response : Inserted InsertResponse.t;
  user : option UserSummary.t;
  attachments : list Attachment.t
}.
End PostedResponse.

(** GET /api/tenant-questions/:id/responses *)
Definition listResponses (user : User.t) (tenantQuestionId : Z)
  : State -> Reply (list ResponseWithDetails.t) * State :=
  route (
    tenantQuestion <~ gets (getTenantQuestion tenantQuestionId) ;;
    match tenantQuestion with
    | None => ret (Message 404 "Tenant question not found")
    | Some tenantQuestion =>
      if bool_decide (User.role user <> "Admin")
         && bool_decide (User.tenantId user <> Some (TenantQuestion.tenantId tenantQuestion))
      then ret (Message 403 "You don't have permission to access this data")
      else
        responses <~ gets (getResponsesByTenantQuestion tenantQuestionId) ;;
        responsesWithDetails <~
          mapM (fun response =>
                  user <~ gets (getUser (Response.userId response)) ;;
                  attachments <~ getAttachmentsByResponse (Response.id response) ;;
                  ret (ResponseWithDetails.mk response (userSummary user) attachments))
               responses ;;
        ret (Json 200 responsesWithDetails)
    end).

(** POST /api/tenant-questions/:id/responses, behind
    [validateBody(insertResponseSchema)] *)
Definition postResponse (now : Time) (currentUser : User.t) (tenantQuestionId : Z)
    (body : ResponseBody.t) : State -> Reply PostedResponse.t * State :=
  match insertResponseSchema_parse body with
  | None => fun st => (Message 400 "Validation error", st)
  | Some parsed =>
    route (
      tenantQuestion <~ gets (getTenantQuestion tenantQuestionId) ;;
      match tenantQuestion with
      | None => ret (Message 404 "Tenant question not found")
      | Some tenantQuestion =>
        if bool_decide (User.role currentUser <> "Admin")
           && bool_decide (User.role currentUser <> "Consultant")
           && bool_decide (User.tenantId currentUser
                           <> Some (TenantQuestion.tenantId tenantQuestion))
        then ret (Message 403 "You don't have permission to add responses to this question")
        else
          response <~ createResponse now
            (InsertResponse.mk tenantQuestionId (User.id currentUser)
                               (InsertResponse.content parsed)) ;;
          again <~ gets (getTenantQuestion tenantQuestionId) ;;
          match again with
          | None => throw (TypeError "Cannot read properties of null (reading 'questionId')")
          | Some again =>
            question <~ gets (getQuestion (TenantQuestion.questionId again)) ;;
            tenantUsers <~ gets (getUsersByTenant (TenantQuestion.tenantId tenantQuestion)) ;;
            forEach tenantUsers (fun user =>
              if bool_decide (User.id user <> User.id currentUser)
              then match question with
                   | None => throw (TypeError "Cannot read properties of null (reading 'title')")
                   | Some question =>
                     sendResponseAddedNotification user (Question.title question)
                                                   tenantQuestionId
                   end
              else ret tt) ;;;
            responseUser <~ gets (getUser (InsertResponse.userId (values response))) ;;
            ret (Json 201 (PostedResponse.mk response (userSummary responseUser) []))
          end
      end)
  end.

(** The capability check as section 4.1 of the specification words it. *)
Definition canAccessThread_spec (actingUser : User.t) (tenantQuestion : TenantQuestion.t)
  : bool :=
  bool_decide (User.role actingUser = "Admin")
  || bool_decide (User.role actingUser = "Consultant")
  || bool_decide (User.tenantId actingUser = Some (TenantQuestion.tenantId tenantQuestion)).

(** A small installation: tenants 5 and 7, one question, assigned to
    tenant 7; an administrator, a consultant bound to no tenant, and one
    customer of each tenant. *)
Module Example1.
Definition admin := User.mk 1 "admin" "h1" "admin@example.com" "System Admin" "Admin" None 0.
Definition consultant := User.mk 2 "carol" "h2" "carol@example.com" "Carol" "Consultant" None 0.
Definition customer5 := User.mk 3 "dave" "h3" "dave@five.example" "Dave" "Customer" (Some 5) 0.
Definition customer7 := User.mk 4 "erin" "h4" "erin@seven.example" "Erin" "Customer" (Some 7) 0.
Definition tenant5 := Tenant.mk 5 "Five" None None 0.
Definition tenant7 := Tenant.mk 7 "Seven" None None 0.
Definition domain1 := Domain.mk 1 "Access Reviews" None (Some "security").
Definition question1 :=
  Question.mk 1 "Who certifies access?" None 1 (Some false) None 0 0.
Definition tq1 := TenantQuestion.mk 1 7 1 (Some "Unanswered") 0.
Definition st : State :=
  mkState (mkTable [admin; consultant; customer5; customer7] 5)
          (mkTable [tenant5; tenant7] 8)
          (mkTable [domain1] 2)
          (mkTable [question1] 2)
          (mkTable [tq1] 2)
          (mkTable [] 1)
          (mkTable [] 1)
          ∅ [].
Definition body (content : string) : ResponseBody.t :=
  ResponseBody.mk (JNum 1) (JNum 2) (JStr content).
End Example1.

(** ** The response form of the client (ResponseInput.tsx) *)

(** Strings hold text in UTF-8.  [String.prototype.trim] removes from both
    ends the code points that ECMAScript calls WhiteSpace or
    LineTerminator: tab, line feed, vertical tab, form feed, carriage
    return, space, and beyond ASCII the no-break space, the byte order
    mark, the line and paragraph separators and the space separators of
    Unicode. *)
Definition utf8 (bytes : list Z) : string :=
  foldr (fun n s => String (ascii_of_nat (Z.to_nat n)) s) EmptyString bytes.

Definition whiteSpace : list string :=
  [ utf8 [9]; utf8 [10]; utf8 [11]; utf8 [12]; utf8 [13]; utf8 [32];
    utf8 [194; 160];                                      (* U+00A0 *)
    utf8 [225; 154; 128];                                 (* U+1680 *)
    utf8 [226; 128; 128]; utf8 [226; 128; 129]; utf8 [226; 128; 130];
    utf8 [226; 128; 131]; utf8 [226; 128; 132]; utf8 [226; 128; 133];
    utf8 [226; 128; 134]; utf8 [226; 128; 135]; utf8 [226; 128; 136];
    utf8 [226; 128; 137]; utf8 [226; 128; 138];           (* U+2000 to U+200A *)
    utf8 [226; 128; 168]; utf8 [226; 128; 169];           (* U+2028, U+2029 *)
    utf8 [226; 128; 175];                                 (* U+202F *)
    utf8 [226; 129; 159];                                 (* U+205F *)
    utf8 [227; 128; 128];                                 (* U+3000 *)
    utf8 [239; 187; 191] ].                               (* U+FEFF *)

Definition isWhiteSpace (c : string) : bool := existsb (String.eqb c) whiteSpace.

Fixpoint reverse_string (acc s : string) : string :=
  match s with
  | EmptyString => acc
  | String c s' => reverse_string (String c acc) s'
  end.

Section Trim.
(** Which encoded characters, of one to three bytes, are removed. *)
Variable space : string -> bool.

Fixpoint trimWith (s : string) : string :=
  match s with
  | EmptyString => EmptyString
  | String a s1 =>
    if space (String a EmptyString) then trimWith s1
    else
      match s1 with
      | EmptyString => s
      | String b s2 =>
        if space (String a (String b EmptyString)) then trimWith s2
        else
          match s2 with
          | EmptyString => s
          | String c s3 =>
            if space (String a (String b (String c EmptyString))) then trimWith s3
            else s
          end
      end
  end.
End Trim.

Definition trimStart (s : string) : string := trimWith isWhiteSpace s.

(** From the end, the bytes of a character are met last byte first. *)
Definition trimEnd (s : string) : string :=
  reverse_string ""
    (trimWith (fun c => isWhiteSpace (reverse_string "" c)) (reverse_string "" s)).

Definition trim (s : string) : string := trimEnd (trimStart s).

(** [handleSubmit]: [if (!content.trim()) { toast(...); return; }], else
    the request body [{ content }] is sent. *)
Definition handleSubmit (content : string) : option ResponseBody.t :=
  if bool_decide (trim content = "") then None
  else Some (ResponseBody.mk JUndefined JUndefined (JStr content)).

(** ** Upload middleware (the multer configuration of routes.ts) *)

Module UploadedFile.
Record t := mk {
  originalname : string;
  mimetype : string;
  buffer : list Byte.byte
}.
End UploadedFile.

Definition allowedMimetypes : list string :=
  [ "application/pdf";
    "application/msword";
    "application/vnd.openxmlformats-officedocument.wordprocessingml.document";
    "image/png";
    "image/jpeg" ].

(** [limits.fileSize], in bytes *)
Definition fileSize : Z := 10 * 1024 * 1024.

Definition fileFilter (file : UploadedFile.t) : Result bool :=
  if bool_decide (UploadedFile.mimetype file ∈ allowedMimetypes)
  then Ok true
  else Throw (JsError ("Unsupported file type: " +:+ UploadedFile.mimetype file)).

(** [upload.single("file")]: the filter runs when the part starts, the
    size limit trips as soon as [fileSize] bytes have been read, so a file
    of exactly that size is refused as well; what is left is [req.file]. *)
Definition upload_single (file : option UploadedFile.t) : Result (option UploadedFile.t) :=
  match file with
  | None => Ok None
  | Some f =>
    match fileFilter f with
    | Throw e => Throw e
    | Ok false => Ok None
    | Ok true =>
      if fileSize <=? Z.of_nat (List.length (UploadedFile.buffer f))
      then Throw (MulterError "LIMIT_FILE_SIZE")
      else Ok (Some f)
    end
  end.

(** ** Local file storage (server/file-storage.ts) *)

Module SavedFileInfo.
Record t := mk {
  filename : string;
  originalName : string;
  mimeType : string;
  size : Z
}.
End SavedFileInfo.

Module Download.
Record t := mk {
  contentType : string;
  contentDisposition : string;
  contentLength : Z;
  bytes : list Byte.byte
}.
End Download.

(** The double-quote character. *)
Definition dquote : string := String (ascii_of_nat 34) EmptyString.

(** [getFile]: [uploads] holds the files of the upload directory under
    their names.  For a name of one path segment ([plainName] below)
    [path.join(uploadDir, filename)] is that entry of the directory; a
    name with separators or dots is resolved by [path.join] to some other
    path, which this map does not follow. *)
Definition getFile (filename : string) : M (list Byte.byte) :=
  fun st =>
    match uploads st !! filename with
    | Some buffer => (Ok buffer, st)
    | None => (Throw (FsError "ENOENT"), st)
    end.

(** GET /api/attachments/:id *)
Definition downloadAttachment (user : User.t) (attachmentId : Z)
  : State -> Reply Download.t * State :=
  route (
    attachment <~ getAttachment attachmentId ;;
    match attachment with
    | None => ret (Message 404 "Attachment not found")
    | Some attachment =>
      response <~ gets (getResponse (Attachment.responseId attachment)) ;;
      match response with
      | None => throw (TypeError "Cannot read properties of null (reading 'tenantQuestionId')")
      | Some response =>
        tenantQuestion <~ gets (getTenantQuestion (Response.tenantQuestionId response)) ;;
        forbidden <~
          (if bool_decide (User.role user <> "Admin")
              && bool_decide (User.role user <> "Consultant")
           then match tenantQuestion with
                | None =>
                  throw (TypeError "Cannot read properties of null (reading 'tenantId')")
                | Some tenantQuestion =>
                  ret (bool_decide (User.tenantId user
                                    <> Some (TenantQuestion.tenantId tenantQuestion)))
                end
           else ret false) ;;
        if forbidden
        then ret (Message 403 "You don't have permission to access this file")
        else
          fileBuffer <~ getFile (Attachment.filename attachment) ;;
          ret (Json 200 (Download.mk
                 (Attachment.mimeType attachment)
                 ("attachment; filename=" +:+ dquote
                    +:+ Attachment.originalName attachment +:+ dquote)
                 (Attachment.size attachment)
                 fileBuffer))
      end
    end).

Section FileUpload.
(** [path.extname] of Node.  The value [uuidv4()] draws is an argument
    of the call. *)
Variable extname : string -> string.

Definition saveFile (uuid : string) (buffer : list Byte.byte)
    (originalFilename mimeType : string) : M SavedFileInfo.t :=
  let fileExtension := extname originalFilename in
  let uniqueFilename := uuid +:+ fileExtension in
  modify (set_uploads (insert uniqueFilename buffer)) ;;;
  ret (SavedFileInfo.mk uniqueFilename originalFilename mimeType
                        (Z.of_nat (List.length buffer))).

(** POST /api/responses/:id/attachments, behind [upload.single("file")] *)
Definition attachFile (uuid : string) (user : User.t) (responseId : Z)
    (file : option UploadedFile.t) : State -> Reply Attachment.t * State :=
  match upload_single file with
  | Throw e => fun st => (NextError e, st)
  | Ok None => fun st => (Message 400 "No file uploaded", st)
  | Ok (Some file) =>
    route (
      response <~ gets (getResponse responseId) ;;
      match response with
      | None => ret (Message 404 "Response not found")
      | Some response =>
        if bool_decide (User.id user <> Response.userId response)
           && bool_decide (User.role user <> "Admin")
        then ret (Message 403
               "You don't have permission to add attachments to this response")
        else
          savedFile <~ saveFile uuid (UploadedFile.buffer file)
                         (UploadedFile.originalname file) (UploadedFile.mimetype file) ;;
          attachment <~ createAttachment
            (InsertAttachment.mk responseId
               (SavedFileInfo.filename savedFile) (SavedFileInfo.originalName savedFile)
               (SavedFileInfo.mimeType savedFile) (SavedFileInfo.size savedFile)) ;;
          tenantQuestion <~ gets (getTenantQuestion (Response.tenantQuestionId response)) ;;
          match tenantQuestion with
          | None => throw (TypeError "Cannot read properties of null (reading 'questionId')")
          | Some tenantQuestion =>
            question <~ gets (getQuestion (TenantQuestion.questionId tenantQuestion)) ;;
            tenantUsers <~ gets (getUsersByTenant (TenantQuestion.tenantId tenantQuestion)) ;;
            forEach tenantUsers (fun notifyUser =>
              if bool_decide (User.id notifyUser <> User.id user)
              then match question with
                   | None =>
                     throw (TypeError "Cannot read properties of null (reading 'title')")
                   | Some question =>
                     sendFileUploadedNotification notifyUser (Question.title question)
                       (TenantQuestion.id tenantQuestion)
                       (SavedFileInfo.originalName savedFile)
                   end
              else ret tt) ;;;
            ret (Json 201 attachment)
          end
      end)
  end.
End FileUpload.

(** ** Tenant-question routes *)

(** POST /api/admin/tenant-questions; [body] is [req.body] once
    [validateBody(insertTenantQuestionSchema)] has let it through. *)
Definition assignQuestion (now : Time) (body : InsertTenantQuestion.t)
  : State -> Reply (Inserted InsertTenantQuestion.t) * State :=
  route (
    existing <~ gets (getTenantQuestionByIds (InsertTenantQuestion.tenantId body)
                                             (InsertTenantQuestion.questionId body)) ;;
    match existing with
    | Some _ => ret (Message 400 "This question is already assigned to the tenant")
    | None =>
      tenantQuestion <~ createTenantQuestion now body ;;
      ret (Json 201 tenantQuestion)
    end).

(** [storage.updateTenantQuestion(id, { status })]: the class [Storage]
    defines no such method, so the property is [undefined] and the call
    throws. *)
Definition updateTenantQuestion (id : Z) (status : string) : M (option TenantQuestion.t) :=
  throw (TypeError "storage.updateTenantQuestion is not a function").

(** [["Unanswered", "In Progress", "Answered"]] *)
Definition validStatuses : list JsVal :=
  [JStr "Unanswered"; JStr "In Progress"; JStr "Answered"].

(** PUT /api/tenant/:tenantId/questions/:id/status.  The handler reads
    neither [req.user] nor the [tenantId] of the path. *)
Definition setStatus (user : option User.t) (tenantId id : Z) (status : JsVal)
  : State -> Reply TenantQuestion.t * State :=
  route (
    if negb (bool_decide (status ∈ validStatuses))
    then ret (Message 400 "Invalid status")
    else
      match status with
      | JStr status =>
        tenantQuestion <~ updateTenantQuestion id status ;;
        match tenantQuestion with
        | None => ret (Message 404 "Tenant question not found")
        | Some tenantQuestion => ret (Json 200 tenantQuestion)
        end
      | _ => ret (Message 400 "Invalid status")
      end).

(** [if (user.tenantId)]: neither [null] nor [0]. *)
Definition truthy (tenantId : option Z) : option Z :=
  match tenantId with
  | Some t => if bool_decide (t = 0) then None else Some t
  | None => None
  end.

(** [hashPassword(req.body.password)]: routes.ts imports [setupAuth] alone
    from the authentication module and declares no [hashPassword], so
    evaluating the name throws. *)
Definition hashPassword (password : string) : M string :=
  throw (ReferenceError "hashPassword is not defined").

(** POST /api/register *)
Definition register (now : Time) (body : InsertUser.t) : State -> Reply User.t * State :=
  route (
    existingUser <~ gets (getUserByUsername (InsertUser.username body)) ;;
    match existingUser with
    | Some _ => ret (Send 400 "Username already exists")
    | None =>
      password <~ hashPassword (InsertUser.password body) ;;
      user <~ createUser now
        (InsertUser.mk (InsertUser.username body) password
                       (InsertUser.email body) (InsertUser.fullName body)
                       (InsertUser.role body) (InsertUser.tenantId body)) ;;
      match truthy (User.tenantId user) with
      | Some tenantId =>
        questions <~ gets getAllQuestions ;;
        forEach questions (fun question =>
          createTenantQuestion now
            (InsertTenantQuestion.mk tenantId (Question.id question)
                                     (Some (Some "Unanswered")) None JUndefined) ;;;
          ret tt)
      | None => ret tt
      end ;;;
      ret (Json 201 user)
    end).

(** ** Dashboard *)

(** [storage.getTenantQuestionsByTenant(tenantId)]: the class [Storage]
    defines no such method either. *)
Definition getTenantQuestionsByTenant (tenantId : Z) : M (list TenantQuestion.t) :=
  throw (TypeError "storage.getTenantQuestionsByTenant is not a function").

Module Activity.
Record t := mk {
  type : string;
  user : option UserSummary.t;
  questionTitle : option string;
  questionId : Z;
  date : Time
}.
End Activity.

Module Dashboard.
Record t := mk {
  progress : Progress.t;
  recentActivities : list Activity.t
}.
End Dashboard.

(** [Array.prototype.sort(compare)]: a stable sort; [x] goes before [y]
    when [compare x y] is not positive and [x] came first. *)
Fixpoint insert_sorted {A} (compare : A -> A -> Z) (x : A) (l : list A) : list A :=
  match l with
  | [] => [x]
  | y :: l' => if compare x y <=? 0 then x :: l else y :: insert_sorted compare x l'
  end.

Definition sort {A} (compare : A -> A -> Z) (l : list A) : list A :=
  foldr (insert_sorted compare) [] l.

(** The entry the loop pushes for one tenant question: its last listed
    response, if it has any. *)
Definition activityOf (st : State) (tq : TenantQuestion.t) : option Activity.t :=
  let responses := getResponsesByTenantQuestion (TenantQuestion.id tq) st in
  match last responses with
  | None => None
  | Some latestResponse =>
    let user := getUser (Response.userId latestResponse) st in
    let question := getQuestion (TenantQuestion.questionId tq) st in
    Some (Activity.mk "response" (userSummary user) (Question.title <$> question)
                      (TenantQuestion.id tq) (Response.createdAt latestResponse))
  end.

(** The feed of the dashboard route: the loop over
    [tenantQuestions.slice(0, 5)], then the sort by date and
    [slice(0, 5)]. *)
Definition recentActivities (tenantQuestions : list TenantQuestion.t) (st : State)
  : list Activity.t :=
  let recentActivities := omap (activityOf st) (take 5 tenantQuestions) in
  take 5 (sort (fun a b => Activity.date b - Activity.date a) recentActivities).

(** The handler from its second statement on, [progress] being what the
    first one got. *)
Definition dashboardFeed (progress : Progress.t) (tenantId : Z) : M (Reply Dashboard.t) :=
  tenantQuestions <~ getTenantQuestionsByTenant tenantId ;;
  activities <~ gets (recentActivities tenantQuestions) ;;
  ret (Json 200 (Dashboard.mk progress activities)).

(** GET /api/tenant/:tenantId/dashboard *)
Definition dashboard (tenantId : Z) : State -> Reply Dashboard.t * State :=
  route (
    progress <~ getTenantProgress tenantId ;;
    dashboardFeed progress tenantId).

(** ** User listing *)

(** A row of [users] as the JavaScript object the driver hands back. *)
Definition userObject (u : User.t) : gmap string JsVal :=
  list_to_map
    [ ("id", JNum (User.id u));
      ("username", JStr (User.username u));
      ("password", JStr (User.password u));
      ("email", JStr (User.email u));
      ("fullName", JStr (User.fullName u));
      ("role", JStr (User.role u));
      ("tenantId", from_option JNum JNull (User.tenantId u));
      ("createdAt", JNum (User.createdAt u)) ].

(** [const { password, ...userWithoutPassword } = user] *)
Definition withoutPassword (user : gmap string JsVal) : gmap string JsVal :=
  delete "password" user.

(** [for (let i = 1; i < storage.userId; i++)]: the values of [i].  The
    comparison with [undefined] is false, so nothing is visited when the
    storage object has no such property. *)
Definition userIdRange (userId : option Z) : list Z :=
  match userId with
  | Some n => map Z.of_nat (seq 1 (Z.to_nat (n - 1)))
  | None => []
  end.

(** The class [Storage] declares no [userId]. *)
Definition storage_userId : option Z := None.

(** GET /api/admin/users; [tenantId] is the parsed query parameter, if it
    is given and a number. *)
Definition listUsers (userId : option Z) (tenantId : option Z)
  : State -> Reply (list (gmap string JsVal)) * State :=
  route (
    users <~
      match truthy tenantId with
      | Some tenantId => gets (getUsersByTenant tenantId)
      | None => gets (fun st => omap (fun i => getUser i st) (userIdRange userId))
      end ;;
    let sanitizedUsers := map (fun user => withoutPassword (userObject user)) users in
    ret (Json 200 sanitizedUsers)).

(** ** The uniqueness invariant of assignments *)



(** ** Further example states *)

Module Example2.
Import Example1.
(** Two customers of tenant 7 register one after the other while the
    question pool holds one question and nothing is assigned yet. *)
Definition unassigned : State :=
  mkState (users st) (tenants st) (domains st) (questions st)
          (mkTable [] 1) (responses st) (attachments st) (uploads st) (outbox st).
Definition frank := InsertUser.mk "frank" "pw-frank" "frank@seven.example" "Frank"
                                  None (Some 7).

(** Erin answers the question of tenant 7 twice. *)
Definition response1 := Response.mk 1 1 4 "first answer" 100.
Definition response2 := Response.mk 2 1 4 "second answer" 200.
Definition answered : State :=
  mkState (users st) (tenants st) (domains st) (questions st)
          (tenantQuestions st) (mkTable [response1; response2] 3)
          (attachments st) (uploads st) (outbox st).

Definition png : UploadedFile.t :=
  UploadedFile.mk "diagram.png" "image/png" [Byte.x89; Byte.x50; Byte.x4e; Byte.x47].
End Example2.

(** ** States that differ in the stored passwords only *)

Definition erasePassword (u : User.t) : User.t :=
  User.mk (User.id u) (User.username u) "" (User.email u) (User.fullName u)
          (User.role u) (User.tenantId u) (User.createdAt u).

Definition erasePasswords (st : State) : State :=
  set_users (fun t => mkTable (map erasePassword (rows t)) (autoIncrement t)) st.

(** ** The rest of the repository layer and of the routes *)

Module TenantQuestionWithDetails.
Record t := mk {
  tenantQuestion : TenantQuestion.t;
  question : option Question.t
}.
End TenantQuestionWithDetails.

(** [getTenantQuestionsWithDetails]: the rows of the tenant, each with
    [{ ...tq, question }], the question read by [getQuestion]. *)
Definition getTenantQuestionsWithDetails (tenantId : Z) (st : State)
  : list TenantQuestionWithDetails.t :=
  map (fun tq =>
         TenantQuestionWithDetails.mk tq (getQuestion (TenantQuestion.questionId tq) st))
      (List.filter (fun tq => bool_decide (TenantQuestion.tenantId tq = tenantId))
                   (rows (tenantQuestions st))).

(** GET /api/tenant/:tenantId/questions *)
Definition listTenantQuestions (tenantId : Z)
  : State -> Reply (list TenantQuestionWithDetails.t) * State :=
  route (
    questions <~ gets (getTenantQuestionsWithDetails tenantId) ;;
    ret (Json 200 questions)).

(** [deleteFile]: [unlink], [true]; when it throws (no such file),
    [false].  Names are read as in [getFile]. *)
Definition deleteFile (filename : string) : M bool :=
  fun st =>
    match uploads st !! filename with
    | Some _ => (Ok true, set_uploads (delete filename) st)
    | None => (Ok false, st)
    end.

Definition set_domains (f : Table Domain.t -> Table Domain.t) (st : State) : State :=
  mkState (users st) (tenants st) (f (domains st)) (questions st)
          (tenantQuestions st) (responses st) (attachments st) (uploads st) (outbox st).

(** The [defaultDomains] of storage.ts: name, description, icon. *)
Definition defaultDomains : list (string * string * string) :=
  [ ("Access Reviews", "Access management and review questions", "security");
    ("Generic Governance", "General governance and compliance questions", "gavel");
    ("Application Onboarding", "New application integration questions",
     "app_registration");
    ("SOD", "Segregation of Duties related questions", "people");
    ("AD & Directory Services", "Active Directory and authentication questions",
     "folder_shared") ].

(** [initializeDefaultDomains]: the five domains are inserted, in one
    statement, when the select finds the table empty. *)
Definition initializeDefaultDomains : M unit :=
  existingDomains <~ gets (fun st => rows (domains st)) ;;
  if bool_decide (List.length existingDomains = 0%nat)
  then
    modify (set_domains (fun t =>
      foldl (fun t d =>
               insert_row (fun id => Domain.mk id d.1.1 (Some d.1.2) (Some d.2)) t)
            t defaultDomains))
  else ret tt.

(** ** Invariants of the tables *)

Definition uniqueUsernames (st : State) : Prop :=
  NoDup (map User.username (rows (users st))).

(** ** The question list of a domain (DomainSection.tsx) *)

(** [statusOrder[status]]: [undefined] for any other status. *)
Definition statusOrder (status : option string) : option Z :=
  match status with
  | Some s =>
    if bool_decide (s = "Unanswered") then Some 0
    else if bool_decide (s = "In Progress") then Some 1
    else if bool_decide (s = "Answered") then Some 2
    else None
  | None => None
  end.

(** The comparator of [sortedQuestions]; a difference with [undefined] is
    [NaN], which the sort takes as 0. *)
Definition compareStatus (a b : TenantQuestionWithDetails.t) : Z :=
  match statusOrder (TenantQuestion.status (TenantQuestionWithDetails.tenantQuestion a)),
        statusOrder (TenantQuestion.status (TenantQuestionWithDetails.tenantQuestion b))
  with
  | Some x, Some y => x - y
  | _, _ => 0
  end.

Definition sortedQuestions (questions : list TenantQuestionWithDetails.t)
  : list TenantQuestionWithDetails.t :=
  sort compareStatus questions.

(** [showAll ? sortedQuestions : sortedQuestions.slice(0, 3)] *)
Definition displayedQuestions (showAll : bool) (questions : list TenantQuestionWithDetails.t)
  : list TenantQuestionWithDetails.t :=
  if showAll then sortedQuestions questions else take 3 (sortedQuestions questions).

(** [questions.filter(q => q.status === "Answered").length] *)
Definition answeredQuestions (questions : list TenantQuestionWithDetails.t) : nat :=
  List.length
    (List.filter
       (fun q => bool_decide
                   (TenantQuestion.status (TenantQuestionWithDetails.tenantQuestion q)
                    = Some "Answered"))
       questions).

Section RelativeTime.
(** [Date.prototype.toLocaleDateString], of the browser; [None] is the
    invalid date. *)
Variable toLocaleDateString : option Time -> string.

(** [formatRelativeTime] of DomainSection.tsx and ActivityItem.tsx;
    [date] is [new Date(dateString)], [None] when the string is no date:
    every comparison with [NaN] is then false. *)
Definition formatRelativeTime (now : Time) (date : option Time) : string :=
  match date with
  | None => toLocaleDateString None
  | Some d =>
    let diffInSeconds := (now - d) / 1000 in
    if diffInSeconds <? 60 then "just now"
    else if diffInSeconds <? 3600 then
      let minutes := diffInSeconds / 60 in
      pretty minutes +:+ " " +:+ (if bool_decide (minutes = 1) then "minute" else "minutes")
      +:+ " ago"
    else if diffInSeconds <? 86400 then
      let hours := diffInSeconds / 3600 in
      pretty hours +:+ " " +:+ (if bool_decide (hours = 1) then "hour" else "hours")
      +:+ " ago"
    else if diffInSeconds <? 604800 then
      let days := diffInSeconds / 86400 in
      pretty days +:+ " " +:+ (if bool_decide (days = 1) then "day" else "days")
      +:+ " ago"
    else toLocaleDateString (Some d)
  end.
End RelativeTime.

(** The characters of a string. *)
Fixpoint chars (s : string) : list ascii :=
  match s with
  | EmptyString => []
  | String c s' => c :: chars s'
  end.

(** Strings made of characters of a given kind, one after the other. *)
Inductive madeOf (P : string -> Prop) : string -> Prop :=
| madeOf_empty : madeOf P EmptyString
| madeOf_app (c s : string) : P c -> madeOf P s -> madeOf P (c +:+ s).

(** Text that consists of white space only. *)
Definition whiteSpaceOnly (s : string) : Prop := madeOf (fun c => c ∈ whiteSpace) s.

(** A file name of one path segment, which [path.join] appends to the
    upload directory as it is: not empty, neither [.] nor [..], of at most
    255 bytes, with no separator and no NUL. *)
Definition plainName (name : string) : Prop :=
  name <> "" /\ name <> "." /\ name <> ".."
  /\ (String.length name <= 255)%nat
  /\ Forall (fun c => c <> "/"%char /\ c <> "\"%char /\ c <> ascii_of_nat 0) (chars name).

(** ** Sequences of requests *)


Section Operations.
Variable extname : string -> string.


End Operations.

(** * Properties *)

(** ** Generic facts about selects and the state setters *)

Lemma first_where_Some {A} (p : A -> bool) (t : Table A) (x : A) :
  first_where p t = Some x -> x ∈ rows t /\ p x = true.
Proof.
  unfold first_where. intros H.
  assert (Hin : In x (List.filter p (rows t))).
  { destruct (List.filter p (rows t)) as [|y l]; simplify_eq/=. by left. }
  apply filter_In in Hin as [Hin Hp]. split; [by apply list_elem_of_In | done].
Qed.


Lemma head_filter_map {A} (p : A -> bool) (f : A -> A) (l : list A) :
  (forall x, p (f x) = p x) ->
  head (List.filter p (map f l)) = f <$> head (List.filter p l).
Proof.
  intros Hp. induction l as [|x l IH]; [done|].
  simpl. rewrite Hp. destruct (p x); [done | exact IH].
Qed.

(** ** Access to a thread (C1) *)

(** The guard of the write path is the capability check of the
    specification. *)
Lemma postResponse_guard_is_canAccessThread
    (currentUser : User.t) (tenantQuestion : TenantQuestion.t) :
  bool_decide (User.role currentUser <> "Admin")
  && bool_decide (User.role currentUser <> "Consultant")
  && bool_decide (User.tenantId currentUser
                  <> Some (TenantQuestion.tenantId tenantQuestion))
  = negb (canAccessThread_spec currentUser tenantQuestion).
Proof.
  unfold canAccessThread_spec.
  repeat case_bool_decide; simpl; congruence.
Qed.

(** The guard of the read path lets a caller through exactly when the
    role is Admin or the tenant matches: the Consultant role plays no
    part. *)
Lemma listResponses_forbidden_iff
    (user : User.t) (tenantQuestionId : Z) (st : State) (tq : TenantQuestion.t) :
  getTenantQuestion tenantQuestionId st = Some tq ->
  statusCode (fst (listResponses user tenantQuestionId st)) = Some 403
  <-> User.role user <> "Admin" /\ User.tenantId user <> Some (TenantQuestion.tenantId tq).
Proof.
  intros Htq. unfold listResponses, route, bind, gets. rewrite Htq.
  repeat case_bool_decide; simpl; [unfold ret; simpl; tauto | ..];
    (split; [|tauto]); intros Hs; exfalso; revert Hs;
    unfold ret; destruct (mapM _ _ st) as [[?|?] ?]; simpl; discriminate.
Qed.

(** The runs of [postResponse], case by case. *)
Lemma postResponse_invalid
    (now : Time) (currentUser : User.t) (tenantQuestionId : Z)
    (body : ResponseBody.t) (st : State) :
  insertResponseSchema_parse body = None ->
  postResponse now currentUser tenantQuestionId body st
  = (Message 400 "Validation error", st).
Proof. intros Hparse. unfold postResponse. by rewrite Hparse. Qed.

Lemma postResponse_missing
    (now : Time) (currentUser : User.t) (tenantQuestionId : Z)
    (body : ResponseBody.t) (parsed : InsertResponse.t) (st : State) :
  insertResponseSchema_parse body = Some parsed ->
  getTenantQuestion tenantQuestionId st = None ->
  postResponse now currentUser tenantQuestionId body st
  = (Message 404 "Tenant question not found", st).
Proof.
  intros Hparse Htq. unfold postResponse. rewrite Hparse.
  unfold route, bind, gets, ret. by rewrite Htq.
Qed.

Lemma postResponse_forbidden
    (now : Time) (currentUser : User.t) (tenantQuestionId : Z)
    (body : ResponseBody.t) (parsed : InsertResponse.t) (tq : TenantQuestion.t)
    (st : State) :
  insertResponseSchema_parse body = Some parsed ->
  getTenantQuestion tenantQuestionId st = Some tq ->
  canAccessThread_spec currentUser tq = false ->
  postResponse now currentUser tenantQuestionId body st
  = (Message 403 "You don't have permission to add responses to this question", st).
Proof.
  intros Hparse Htq Haccess. unfold postResponse. rewrite Hparse.
  unfold route. unfold bind at 1. unfold gets at 1. rewrite Htq.
  by rewrite postResponse_guard_is_canAccessThread, Haccess.
Qed.

Lemma postResponse_unknown_user
    (now : Time) (currentUser : User.t) (tenantQuestionId : Z)
    (body : ResponseBody.t) (parsed : InsertResponse.t) (tq : TenantQuestion.t)
    (st : State) :
  insertResponseSchema_parse body = Some parsed ->
  getTenantQuestion tenantQuestionId st = Some tq ->
  canAccessThread_spec currentUser tq = true ->
  getUser (User.id currentUser) st = None ->
  postResponse now currentUser tenantQuestionId body st
  = (NextError (DbError "responses.user_id references users.id"), st).
Proof.
  intros Hparse Htq Haccess Huser. unfold postResponse. rewrite Hparse.
  unfold route. unfold bind at 1. unfold gets at 1. rewrite Htq.
  rewrite postResponse_guard_is_canAccessThread, Haccess. cbn [negb].
  unfold bind at 1. unfold createResponse, tenantQuestion_exists, user_exists.
  cbn [InsertResponse.tenantQuestionId InsertResponse.userId].
  rewrite Htq, Huser.
  rewrite bool_decide_true by eauto.
  rewrite bool_decide_false by (intros [? ?]; discriminate).
  reflexivity.
Qed.

(** Once the store has taken the row, [createResponse] throws and the
    rest of the handler is not run. *)
Lemma postResponse_stored
    (now : Time) (currentUser : User.t) (tenantQuestionId : Z)
    (body : ResponseBody.t) (parsed : InsertResponse.t) (tq : TenantQuestion.t)
    (st : State) :
  insertResponseSchema_parse body = Some parsed ->
  getTenantQuestion tenantQuestionId st = Some tq ->
  canAccessThread_spec currentUser tq = true ->
  is_Some (getUser (User.id currentUser) st) ->
  postResponse now currentUser tenantQuestionId body st
  = (NextError NotIterable,
     set_responses
       (insert_row (fun id =>
          Response.mk id tenantQuestionId (User.id currentUser)
                      (InsertResponse.content parsed) now)) st).
Proof.
  intros Hparse Htq Haccess Huser. unfold postResponse. rewrite Hparse.
  unfold route. unfold bind at 1. unfold gets at 1. rewrite Htq.
  rewrite postResponse_guard_is_canAccessThread, Haccess. cbn [negb].
  unfold bind at 1. unfold createResponse, tenantQuestion_exists, user_exists.
  cbn [InsertResponse.tenantQuestionId InsertResponse.userId InsertResponse.content].
  rewrite Htq. rewrite !bool_decide_true by eauto. reflexivity.
Qed.

Lemma postResponse_state
    (now : Time) (currentUser : User.t) (tenantQuestionId : Z)
    (body : ResponseBody.t) (st : State) :
  (snd (postResponse now currentUser tenantQuestionId body st) = st
   /\ statusCode (fst (postResponse now currentUser tenantQuestionId body st)) <> Some 201)
  \/ exists parsed,
       insertResponseSchema_parse body = Some parsed
       /\ postResponse now currentUser tenantQuestionId body st
          = (NextError NotIterable,
             set_responses
               (insert_row (fun id =>
                  Response.mk id tenantQuestionId (User.id currentUser)
                              (InsertResponse.content parsed) now)) st).
Proof.
  destruct (insertResponseSchema_parse body) as [parsed|] eqn:Hparse;
    [|left; by rewrite postResponse_invalid].
  destruct (getTenantQuestion tenantQuestionId st) as [tq|] eqn:Htq;
    [|left; by rewrite (postResponse_missing _ _ _ _ parsed)].
  destruct (canAccessThread_spec currentUser tq) eqn:Haccess;
    [|left; by rewrite (postResponse_forbidden _ _ _ _ parsed tq)].
  destruct (getUser (User.id currentUser) st) as [u|] eqn:Huser;
    [|left; by rewrite (postResponse_unknown_user _ _ _ _ parsed tq)].
  right. exists parsed. split; [done|].
  apply (postResponse_stored now currentUser tenantQuestionId body parsed tq st); eauto.
Qed.

(** C1.  The read path refuses a Consultant whom the capability check of
    the specification, and the guard of the write path of the same
    thread, let through: whenever the thread exists and the Consultant is
    not of its tenant, [listResponses] answers 403.  On the thread of
    tenant 7, the consultant bound to no tenant is answered 403 by
    [listResponses], while [postResponse] does not answer 403 and stores
    the response; the customer of tenant 5 is refused and the customer of
    tenant 7 is served, as claimed. *)
Theorem listResponses_refuses_consultant :
  (forall user tenantQuestionId st tq,
      getTenantQuestion tenantQuestionId st = Some tq ->
      User.role user = "Consultant" ->
      User.tenantId user <> Some (TenantQuestion.tenantId tq) ->
      canAccessThread_spec user tq = true
      /\ fst (listResponses user tenantQuestionId st)
         = Message 403 "You don't have permission to access this data")
  /\ canAccessThread_spec Example1.consultant Example1.tq1 = true
  /\ fst (listResponses Example1.consultant 1 Example1.st)
     = Message 403 "You don't have permission to access this data"
  /\ statusCode (fst (postResponse 100 Example1.consultant 1 (Example1.body "noted")
                                   Example1.st)) <> Some 403
  /\ rows (responses (snd (postResponse 100 Example1.consultant 1 (Example1.body "noted")
                                        Example1.st)))
     = [Response.mk 1 1 2 "noted" 100]
  /\ fst (listResponses Example1.customer5 1 Example1.st)
     = Message 403 "You don't have permission to access this data"
  /\ fst (listResponses Example1.customer7 1 Example1.st) = Json 200 [].
Proof.
  split.
  - intros user tenantQuestionId st tq Htq Hrole Htenant. split.
    + unfold canAccessThread_spec.
      rewrite (bool_decide_true (User.role user = "Consultant")) by done.
      by rewrite orb_true_r.
    + unfold listResponses, route, bind, gets, ret. rewrite Htq.
      rewrite !bool_decide_true; [done | done | by rewrite Hrole].
  - split_and!; try (vm_compute; reflexivity). vm_compute. discriminate.
Qed.

(** ** The dashboard (C5, C9) *)

(** C5.  [getTenantProgress] computes nothing: for every tenant and every
    state, a tenant without rows included, it throws "Method not
    implemented." and the dashboard route hands that error on instead of
    answering with [overallCompletion]. *)
Theorem getTenantProgress_not_implemented (tenantId : Z) (st : State) :
  getTenantProgress tenantId st = (Throw (JsError "Method not implemented."), st)
  /\ dashboard tenantId st = (NextError (JsError "Method not implemented."), st)
  /\ getTenantQuestionsWithDetails 5 Example1.st = []
  /\ fst (dashboard 5 Example1.st) = NextError (JsError "Method not implemented.").
Proof. repeat split. Qed.

(** C9.  The dashboard route delivers no feed.  For every tenant and
    every state it fails on the progress, which it asks for first, and
    hands the error on: no reply carries a list of activities.  Were the
    progress there, the handler would go on to call
    [storage.getTenantQuestionsByTenant], which the repository does not
    have, and fail before its loop.  So for tenant 7, whose question has
    two responses, the answer is the error and not the two responses. *)
Theorem dashboard_delivers_no_feed (tenantId : Z) (st : State) :
  statusCode (fst (dashboard tenantId st)) = None
  /\ (forall reply, fst (dashboard tenantId st) <> Json 200 reply)
  /\ snd (dashboard tenantId st) = st
  /\ (forall progress,
        dashboardFeed progress tenantId st
        = (Throw (TypeError "storage.getTenantQuestionsByTenant is not a function"), st))
  /\ getResponsesByTenantQuestion 1 Example2.answered
     = [Example2.response1; Example2.response2]
  /\ dashboard 7 Example2.answered
     = (NextError (JsError "Method not implemented."), Example2.answered).
Proof. split_and!; try reflexivity. intros reply. discriminate. Qed.

(** ** Status updates (C2) *)

Lemma validStatuses_strings (status : JsVal) :
  status ∈ validStatuses -> exists s, status = JStr s.
Proof.
  unfold validStatuses. rewrite !elem_of_cons, elem_of_nil.
  intros [->|[->|[->|[]]]]; eauto.
Qed.

Lemma setStatus_run (user : option User.t) (tenantId id : Z) (status : JsVal) (st : State) :
  setStatus user tenantId id status st
  = (if bool_decide (status ∈ validStatuses)
     then NextError (TypeError "storage.updateTenantQuestion is not a function")
     else Message 400 "Invalid status",
     st).
Proof.
  unfold setStatus, route, bind, ret, updateTenantQuestion, throw.
  case_bool_decide as Hvalid; [|reflexivity].
  by destruct (validStatuses_strings _ Hvalid) as [s ->].
Qed.

(** C2.  The status route never updates anything.  A status outside the
    three enumerated values is answered 400; for a valid one the handler
    calls [storage.updateTenantQuestion], which the repository does not
    have, and the TypeError is handed on: the state is unchanged, and the
    answer is never 200, 403 or 404 and is the same for every caller and
    every tenant in the path.  So the administrator setting the existing
    TenantQuestion 1 to Answered is not served, its status and
    [lastUpdated] stay as they were, and the customer of another tenant
    gets the same answer, not Forbidden. *)
Theorem setStatus_never_updates
    (user : option User.t) (tenantId id : Z) (status : JsVal) (st : State) :
  (status ∈ validStatuses ->
   setStatus user tenantId id status st
   = (NextError (TypeError "storage.updateTenantQuestion is not a function"), st))
  /\ (status ∉ validStatuses ->
      setStatus user tenantId id status st = (Message 400 "Invalid status", st))
  /\ snd (setStatus user tenantId id status st) = st
  /\ statusCode (fst (setStatus user tenantId id status st)) <> Some 200
  /\ statusCode (fst (setStatus user tenantId id status st)) <> Some 403
  /\ statusCode (fst (setStatus user tenantId id status st)) <> Some 404
  /\ (forall user' tenantId',
        setStatus user' tenantId' id status st = setStatus user tenantId id status st)
  /\ getTenantQuestion 1 Example1.st = Some Example1.tq1
  /\ setStatus (Some Example1.admin) 7 1 (JStr "Answered") Example1.st
     = (NextError (TypeError "storage.updateTenantQuestion is not a function"),
        Example1.st)
  /\ setStatus (Some Example1.customer5) 5 1 (JStr "Answered") Example1.st
     = (NextError (TypeError "storage.updateTenantQuestion is not a function"),
        Example1.st).
Proof.
  rewrite !setStatus_run. split_and!.
  - intros Hvalid. by rewrite bool_decide_true.
  - intros Hinvalid. by rewrite bool_decide_false.
  - reflexivity.
  - by case_bool_decide.
  - by case_bool_decide.
  - by case_bool_decide.
  - intros user' tenantId'. by rewrite setStatus_run.
  - reflexivity.
  - reflexivity.
  - reflexivity.
Qed.

(** ** Assignment (C3, C4) *)

Lemma rows_insert_row_with_id {A} (id : option Z) (mkRow : Z -> A) (t : Table A) :
  rows (insert_row_with_id id mkRow t) = rows t ++ [mkRow (default (autoIncrement t) id)].
Proof. by destruct id. Qed.

(** The assignment route when the store takes the row: the row is there,
    and [createTenantQuestion] has thrown. *)
Lemma assignQuestion_stored (now : Time) (body : InsertTenantQuestion.t) (st : State) :
  getTenantQuestionByIds (InsertTenantQuestion.tenantId body)
                         (InsertTenantQuestion.questionId body) st = None ->
  InsertTenantQuestion.lastUpdated body = JUndefined ->
  getTenantQuestion (default (autoIncrement (tenantQuestions st))
                             (InsertTenantQuestion.id body)) st = None ->
  is_Some (getTenant (InsertTenantQuestion.tenantId body) st) ->
  is_Some (getQuestion (InsertTenantQuestion.questionId body) st) ->
  assignQuestion now body st
  = (NextError NotIterable,
     set_tenantQuestions
       (insert_row_with_id (InsertTenantQuestion.id body) (fun id =>
          TenantQuestion.mk id (InsertTenantQuestion.tenantId body)
            (InsertTenantQuestion.questionId body)
            (default (Some "Unanswered") (InsertTenantQuestion.status body)) now))
       st).
Proof.
  intros Hpair Hdate Hid Ht Hq.
  unfold assignQuestion, route, bind, gets, ret. rewrite Hpair.
  unfold createTenantQuestion, tenantQuestion_exists, tenant_exists, question_exists.
  rewrite Hdate. cbv zeta. rewrite Hid.
  rewrite bool_decide_false by (intros [? ?]; discriminate).
  by rewrite !bool_decide_true.
Qed.

(** Every other run of the assignment route leaves the state alone and
    answers 400 or hands an error on. *)
Lemma assignQuestion_state (now : Time) (body : InsertTenantQuestion.t) (st : State) :
  (snd (assignQuestion now body st) = st
   /\ (fst (assignQuestion now body st)
       = Message 400 "This question is already assigned to the tenant"
       \/ exists e, fst (assignQuestion now body st) = NextError e))
  \/ (getTenantQuestionByIds (InsertTenantQuestion.tenantId body)
                             (InsertTenantQuestion.questionId body) st = None
      /\ InsertTenantQuestion.lastUpdated body = JUndefined
      /\ getTenantQuestion (default (autoIncrement (tenantQuestions st))
                                    (InsertTenantQuestion.id body)) st = None
      /\ is_Some (getTenant (InsertTenantQuestion.tenantId body) st)
      /\ is_Some (getQuestion (InsertTenantQuestion.questionId body) st)).
Proof.
  unfold assignQuestion, route, bind, gets, ret.
  destruct (getTenantQuestionByIds _ _ st) eqn:Hpair; [left; eauto|].
  unfold createTenantQuestion, tenantQuestion_exists, tenant_exists, question_exists.
  destruct (InsertTenantQuestion.lastUpdated body) eqn:Hdate;
    try (left; simpl; eauto; fail).
  cbv zeta.
  destruct (getTenantQuestion _ st) eqn:Hid.
  { rewrite bool_decide_true by eauto. left. simpl. eauto. }
  rewrite bool_decide_false by (intros [? ?]; discriminate).
  repeat case_bool_decide; simpl; try (left; eauto; fail).
  right. done.
Qed.



(** Registration stops at [hashPassword]: nothing is stored. *)
Lemma register_run (now : Time) (body : InsertUser.t) (st : State) :
  register now body st
  = (match getUserByUsername (InsertUser.username body) st with
     | Some _ => Send 400 "Username already exists"
     | None => NextError (ReferenceError "hashPassword is not defined")
     end, st).
Proof.
  unfold register, route, bind, gets, ret, hashPassword, throw.
  by destruct (getUserByUsername _ st).
Qed.





(** C4 (as stated, refuted).  A second assignment of the pair (7, 1) is
    answered 400, not 409; an assignment to the absent tenant 9 is turned
    down by the store's foreign key and handed on as an error, not
    answered 404; and an assignment whose body gives the status Answered
    creates the row with that status. *)
Lemma assignQuestion_duplicate_answers_400 :
  getTenantQuestionByIds 7 1 Example1.st = Some Example1.tq1
  /\ assignQuestion 50 (InsertTenantQuestion.mk 7 1 None None JUndefined) Example1.st
     = (Message 400 "This question is already assigned to the tenant", Example1.st)
  /\ getTenant 9 Example1.st = None
  /\ assignQuestion 50 (InsertTenantQuestion.mk 9 1 None None JUndefined) Example1.st
     = (NextError (DbError "tenant_questions.tenant_id references tenants.id"),
        Example1.st)
  /\ rows (tenantQuestions
             (snd (assignQuestion 50
                     (InsertTenantQuestion.mk 5 1 (Some (Some "Answered")) None JUndefined)
                     Example1.st)))
     = [Example1.tq1; TenantQuestion.mk 2 5 1 (Some "Answered") 50].
Proof. repeat split; vm_compute; reflexivity. Qed.

(** C4 (amended).  When the pre-lookup finds the pair, the assignment
    route answers 400 and leaves the state as it is.  It checks neither
    the tenant nor the question: when one of them is absent the insert
    fails, by the store's foreign key for a body of the schema's three
    fields, the error is handed on (no 404) and the state is unchanged.
    Otherwise, for a body that carries neither [id] nor [lastUpdated]
    and whose status fits the column, exactly one row is stored, with the
    next id when that is free, the given pair, [lastUpdated] now, and the
    status of the body, which is Unanswered when the body gives none; a
    body that carries a free [id] has its row stored under that id.  The call that stores a row is
    itself not answered 201: the repository method throws after its
    insert and the error is handed on, so the route answers 400 or hands
    an error on, whatever the request. *)
Theorem assignQuestion_outcome (now : Time) (body : InsertTenantQuestion.t) (st : State) :
  let tenantId := InsertTenantQuestion.tenantId body in
  let questionId := InsertTenantQuestion.questionId body in
  let row := fun id =>
    TenantQuestion.mk id tenantId questionId
      (default (Some "Unanswered") (InsertTenantQuestion.status body)) now in
  (is_Some (getTenantQuestionByIds tenantId questionId st) ->
   assignQuestion now body st
   = (Message 400 "This question is already assigned to the tenant", st))
  /\ (getTenantQuestionByIds tenantId questionId st = None ->
      getTenant tenantId st = None \/ getQuestion questionId st = None ->
      (exists e, fst (assignQuestion now body st) = NextError e)
      /\ snd (assignQuestion now body st) = st
      /\ (InsertTenantQuestion.lastUpdated body = JUndefined ->
          exists c, fst (assignQuestion now body st) = NextError (DbError c)))
  /\ (getTenantQuestionByIds tenantId questionId st = None ->
      is_Some (getTenant tenantId st) -> is_Some (getQuestion questionId st) ->
      InsertTenantQuestion.lastUpdated body = JUndefined ->
      (forall s, InsertTenantQuestion.status body = Some (Some s) ->
                 (String.length s <= 50)%nat) ->
      (InsertTenantQuestion.id body = None ->
       getTenantQuestion (autoIncrement (tenantQuestions st)) st = None ->
       assignQuestion now body st
       = (NextError NotIterable, set_tenantQuestions (insert_row row) st)
       /\ rows (tenantQuestions (snd (assignQuestion now body st)))
          = rows (tenantQuestions st) ++ [row (autoIncrement (tenantQuestions st))])
      /\ (forall id,
            InsertTenantQuestion.id body = Some id ->
            getTenantQuestion id st = None ->
            fst (assignQuestion now body st) = NextError NotIterable
            /\ rows (tenantQuestions (snd (assignQuestion now body st)))
               = rows (tenantQuestions st) ++ [row id]))
  /\ (statusCode (fst (assignQuestion now body st)) = Some 400
      \/ statusCode (fst (assignQuestion now body st)) = None).
Proof.
  cbv zeta. split_and!.
  - intros [tq Htq]. unfold assignQuestion, route, bind, gets, ret. by rewrite Htq.
  - intros Hpair Hmissing.
    destruct (assignQuestion_state now body st)
      as [[Hsame [Hdup | [e He]]] | (_ & _ & _ & [t Ht] & [q Hq])].
    + exfalso. revert Hdup. unfold assignQuestion, route, bind, gets, ret. rewrite Hpair.
      destruct (createTenantQuestion now body st) as [[?|?] ?]; discriminate.
    + split_and!; [eauto | done |]. intros Hdate.
      revert He. unfold assignQuestion, route, bind, gets, ret. rewrite Hpair.
      unfold createTenantQuestion, tenantQuestion_exists, tenant_exists, question_exists.
      rewrite Hdate. cbv zeta.
      repeat case_bool_decide; simpl; intros _; eauto.
      exfalso. destruct Hmissing as [Hm|Hm]; rewrite Hm in *;
        match goal with Hs : is_Some None |- _ => by destruct Hs end.
    + exfalso. destruct Hmissing as [Hm|Hm]; congruence.
  - intros Hpair Ht Hq Hdate _. split.
    + intros Hid Hfree.
      rewrite (assignQuestion_stored now body st) by (rewrite ?Hid; done).
      rewrite Hid. cbn [insert_row_with_id snd tenantQuestions set_tenantQuestions].
      split; reflexivity.
    + intros id Hid Hfree.
      rewrite (assignQuestion_stored now body st) by (rewrite ?Hid; done).
      rewrite Hid. cbn [insert_row_with_id snd fst tenantQuestions set_tenantQuestions].
      split; reflexivity.
  - destruct (assignQuestion_state now body st)
      as [[_ [-> | [e ->]]] | (Hpair & Hdate & Hid & Ht & Hq)]; [by left | by right |].
    rewrite (assignQuestion_stored now body st) by done. by right.
Qed.

(** ** Posting a response (C6) *)

(** C6 (as stated, refuted).  A body that passes the schema with
    whitespace-only or empty content is not answered with a validation
    error, and its row is appended. *)
Lemma postResponse_accepts_blank_content :
  trim "   " = ""
  /\ postResponse 100 Example1.customer7 1 (Example1.body "   ") Example1.st
     = (NextError NotIterable,
        set_responses (fun _ => mkTable [Response.mk 1 1 4 "   " 100] 2) Example1.st)
  /\ rows (responses (snd (postResponse 100 Example1.customer7 1 (Example1.body "   ")
                                        Example1.st)))
     = [Response.mk 1 1 4 "   " 100]
  /\ rows (responses (snd (postResponse 100 Example1.customer7 1 (Example1.body "")
                                        Example1.st)))
     = [Response.mk 1 1 4 "" 100].
Proof. repeat split; vm_compute; reflexivity. Qed.

(** C6 (amended).  The server validates the shape of the body only: a
    body that fails the insert schema, one whose content is not a string
    included, is answered 400 and nothing is appended.  It makes no
    emptiness check (the check on the trimmed content is made by the
    client form alone): for a body that passes the schema, whatever its
    content, on an existing TenantQuestion and with access granted, a
    Response row with that content and [createdAt] now is appended to the
    thread.  The call that appends the row is not answered 201: the
    repository method throws after its insert and the error is handed
    on. *)
Theorem postResponse_outcome
    (now : Time) (currentUser : User.t) (tenantQuestionId : Z)
    (body : ResponseBody.t) (st : State) :
  (insertResponseSchema_parse body = None ->
   postResponse now currentUser tenantQuestionId body st
   = (Message 400 "Validation error", st))
  /\ ((forall c, ResponseBody.content body <> JStr c) ->
      insertResponseSchema_parse body = None)
  /\ (forall content, handleSubmit content <> None -> trim content <> "")
  /\ (forall a b c tq,
        body = ResponseBody.mk (JNum a) (JNum b) (JStr c) ->
        int32 a -> int32 b -> Z.of_nat (String.length c) <= 65535 ->
        getTenantQuestion tenantQuestionId st = Some tq ->
        canAccessThread_spec currentUser tq = true ->
        is_Some (getUser (User.id currentUser) st) ->
        fst (postResponse now currentUser tenantQuestionId body st) = NextError NotIterable
        /\ rows (responses (snd (postResponse now currentUser tenantQuestionId body st)))
           = rows (responses st)
             ++ [Response.mk (autoIncrement (responses st)) tenantQuestionId
                             (User.id currentUser) c now])
  /\ statusCode (fst (postResponse now currentUser tenantQuestionId body st)) <> Some 201.
Proof.
  split_and!.
  - apply postResponse_invalid.
  - intros Hnot. unfold insertResponseSchema_parse.
    destruct (ResponseBody.tenantQuestionId body), (ResponseBody.userId body),
      (ResponseBody.content body) as [| | | |c|]; try reflexivity.
    by destruct (Hnot c).
  - intros content. unfold handleSubmit. by case_bool_decide.
  - intros a b c tq -> _ _ _ Htq Haccess Huser.
    rewrite (postResponse_stored now currentUser tenantQuestionId _
               (InsertResponse.mk a b c) tq st) by done.
    split; reflexivity.
  - destruct (postResponse_state now currentUser tenantQuestionId body st)
      as [[_ Hstatus] | (parsed & _ & ->)]; [done | discriminate].
Qed.

(** ** Uploads (C7, C8) *)


(** Saving a file and reading it back under the returned name gives the
    bytes that were saved. *)
Lemma saveFile_getFile
    (extname : string -> string) (uuid : string) (buffer : list Byte.byte)
    (originalFilename mimeType : string) (st : State) :
  exists saved st',
    saveFile extname uuid buffer originalFilename mimeType st = (Ok saved, st')
    /\ SavedFileInfo.size saved = Z.of_nat (List.length buffer)
    /\ getFile (SavedFileInfo.filename saved) st' = (Ok buffer, st').
Proof.
  eexists _, _. split; [reflexivity|]. split; [reflexivity|].
  unfold getFile. simpl. by rewrite lookup_insert_eq.
Qed.

(** C7.  No upload ends in an Attachment row: [createAttachment] and
    [getAttachment] throw "Method not implemented.".  Whatever the
    upload, [attachFile] leaves the attachments table as it was and never
    answers 201; an upload that passes the filter and the size limit, by
    the author of the response or an administrator, has its bytes written
    to the upload directory (where reading them back gives them
    unchanged) and is then answered with that error; and
    [downloadAttachment] fails the same way for every attachment id.  The
    PNG of [Example2] uploaded by the author of response 1 shows it. *)
Theorem attachFile_never_creates_attachment
    (extname : string -> string) (uuid : string) (user : User.t) (responseId : Z)
    (file : option UploadedFile.t) (st : State) :
  attachments (snd (attachFile extname uuid user responseId file st)) = attachments st
  /\ statusCode (fst (attachFile extname uuid user responseId file st)) <> Some 201
  /\ (forall f response,
        file = Some f ->
        upload_single (Some f) = Ok (Some f) ->
        getResponse responseId st = Some response ->
        User.id user = Response.userId response \/ User.role user = "Admin" ->
        attachFile extname uuid user responseId file st
        = (NextError (JsError "Method not implemented."),
           set_uploads (insert (uuid +:+ extname (UploadedFile.originalname f))
                               (UploadedFile.buffer f)) st)
        /\ getFile (uuid +:+ extname (UploadedFile.originalname f))
                   (snd (attachFile extname uuid user responseId file st))
           = (Ok (UploadedFile.buffer f),
              snd (attachFile extname uuid user responseId file st)))
  /\ (forall attachmentId,
        downloadAttachment user attachmentId st
        = (NextError (JsError "Method not implemented."), st))
  /\ upload_single (Some Example2.png) = Ok (Some Example2.png)
  /\ fst (attachFile extname uuid Example1.customer7 1 (Some Example2.png)
                     Example2.answered)
     = NextError (JsError "Method not implemented.").
Proof.
  split; [|split; [|split; [|split; [|split]]]].
  - unfold attachFile. destruct (upload_single file) as [[f|]|e]; try reflexivity.
    unfold route, bind, gets, ret.
    destruct (getResponse responseId st) as [response|]; [|reflexivity].
    destruct (_ && _); reflexivity.
  - unfold attachFile. destruct (upload_single file) as [[f|]|e]; try discriminate.
    unfold route, bind, gets, ret.
    destruct (getResponse responseId st) as [response|]; [|discriminate].
    destruct (_ && _); discriminate.
  - intros f response -> Hupload Hresponse Hauthor.
    assert (Hrun :
      attachFile extname uuid user responseId (Some f) st
      = (NextError (JsError "Method not implemented."),
         set_uploads (insert (uuid +:+ extname (UploadedFile.originalname f))
                             (UploadedFile.buffer f)) st)).
    { unfold attachFile. rewrite Hupload.
      unfold route, bind, gets, ret. rewrite Hresponse.
      replace (bool_decide (User.id user <> Response.userId response)
               && bool_decide (User.role user <> "Admin")) with false; [reflexivity|].
      symmetry. destruct Hauthor as [Hid|Hrole].
      - by rewrite (bool_decide_false _ (fun Hne => Hne Hid)).
      - rewrite (bool_decide_false (User.role user <> "Admin")) by (intros Hne; by apply Hne).
        by rewrite andb_false_r. }
    split; [exact Hrun|]. rewrite Hrun. unfold getFile. simpl.
    by rewrite lookup_insert_eq.
  - reflexivity.
  - vm_compute. reflexivity.
  - vm_compute. reflexivity.
Qed.



(** ** The stable sort *)

Section Sort.
Context {A : Type} (compare : A -> A -> Z).

Lemma insert_sorted_Permutation (x : A) (l : list A) :
  insert_sorted compare x l ≡ₚ x :: l.
Proof.
  induction l as [|y l IH]; [done|].
  simpl. destruct (compare x y <=? 0); [done|].
  rewrite IH. apply Permutation_swap.
Qed.

Lemma sort_Permutation (l : list A) : sort compare l ≡ₚ l.
Proof.
  induction l as [|x l IH]; [done|].
  simpl. rewrite insert_sorted_Permutation. by rewrite IH.
Qed.

(** A comparator that is the difference of two keys, as the one of the
    dashboard route is the difference of two dates. *)
Variable key : A -> Z.
Hypothesis compare_key : forall a b, compare a b = key b - key a.

Lemma insert_sorted_StronglySorted (x : A) (l : list A) :
  StronglySorted (fun a b => key b <= key a) l ->
  StronglySorted (fun a b => key b <= key a) (insert_sorted compare x l).
Proof.
  induction 1 as [|y l Hsorted IH Hall]; simpl.
  - repeat constructor.
  - rewrite compare_key. destruct (Z.leb_spec (key y - key x) 0) as [Hle|Hgt].
    + constructor; [by constructor|].
      constructor; [lia|]. eapply Forall_impl; [exact Hall|]. simpl. intros; lia.
    + constructor; [exact IH|].
      rewrite insert_sorted_Permutation. constructor; [lia | exact Hall].
Qed.

Lemma sort_StronglySorted (l : list A) :
  StronglySorted (fun a b => key b <= key a) (sort compare l).
Proof.
  induction l as [|x l IH]; simpl; [constructor|].
  by apply insert_sorted_StronglySorted.
Qed.

(** The sort is stable: entries of one date keep their order. *)
Lemma insert_sorted_stable (k : Z) (x : A) (l : list A) :
  List.filter (fun a => key a =? k) (insert_sorted compare x l)
  = List.filter (fun a => key a =? k) (x :: l).
Proof.
  induction l as [|y l IH]; [done|].
  cbn [insert_sorted]. rewrite compare_key.
  destruct (Z.leb_spec (key y - key x) 0) as [Hle|Hgt]; [done|].
  cbn [List.filter] in *. rewrite IH.
  destruct (Z.eqb_spec (key x) k) as [Hx|Hx], (Z.eqb_spec (key y) k) as [Hy|Hy];
    try reflexivity.
  lia.
Qed.

Lemma sort_stable (k : Z) (l : list A) :
  List.filter (fun a => key a =? k) (sort compare l)
  = List.filter (fun a => key a =? k) l.
Proof.
  induction l as [|x l IH]; [done|].
  cbn [sort foldr]. rewrite insert_sorted_stable.
  cbn [List.filter]. fold (sort compare l). by rewrite IH.
Qed.
End Sort.

(** ** The user listing (C10) *)

Lemma filter_map_commute {A} (p : A -> bool) (f : A -> A) (l : list A) :
  (forall x, p (f x) = p x) ->
  List.filter p (map f l) = map f (List.filter p l).
Proof.
  intros Hp. induction l as [|x l IH]; [done|].
  simpl. rewrite Hp. destruct (p x); simpl; by rewrite IH.
Qed.

Lemma getUser_erasePasswords (id : Z) (st : State) :
  getUser id (erasePasswords st) = erasePassword <$> getUser id st.
Proof. unfold getUser, first_where. simpl. by apply head_filter_map. Qed.

Lemma getUsersByTenant_erasePasswords (tenantId : Z) (st : State) :
  getUsersByTenant tenantId (erasePasswords st)
  = map erasePassword (getUsersByTenant tenantId st).
Proof. unfold getUsersByTenant. simpl. by apply filter_map_commute. Qed.

Lemma withoutPassword_erasePassword (u : User.t) :
  withoutPassword (userObject (erasePassword u)) = withoutPassword (userObject u).
Proof.
  unfold withoutPassword, userObject. simpl.
  rewrite !(delete_insert_ne _ "password" "id") by done.
  rewrite !(delete_insert_ne _ "password" "username") by done.
  by rewrite !delete_insert_eq.
Qed.

Lemma withoutPassword_lookup (u : User.t) :
  withoutPassword (userObject u) !! "password" = None
  /\ withoutPassword (userObject u) !! "id" = Some (JNum (User.id u))
  /\ withoutPassword (userObject u) !! "username" = Some (JStr (User.username u))
  /\ withoutPassword (userObject u) !! "email" = Some (JStr (User.email u))
  /\ withoutPassword (userObject u) !! "fullName" = Some (JStr (User.fullName u))
  /\ withoutPassword (userObject u) !! "role" = Some (JStr (User.role u)).
Proof.
  unfold withoutPassword, userObject. simpl.
  split; [apply lookup_delete_eq|].
  repeat split; rewrite lookup_delete_ne by done;
    repeat (rewrite lookup_insert_ne by done); by rewrite lookup_insert_eq.
Qed.

(** The users the listing collects before it strips them. *)
Lemma listUsers_run (userId tenantId : option Z) (st : State) :
  exists found,
    listUsers userId tenantId st
    = (Json 200 (map (fun user => withoutPassword (userObject user)) found), st)
    /\ listUsers userId tenantId (erasePasswords st)
       = (Json 200 (map (fun user => withoutPassword (userObject user))
                        (map erasePassword found)),
          erasePasswords st)
    /\ Forall (fun user => user ∈ rows (users st)) found.
Proof.
  unfold listUsers, route, bind, gets, ret.
  destruct (truthy tenantId) as [t|].
  - exists (getUsersByTenant t st). split; [done|]. split.
    + by rewrite getUsersByTenant_erasePasswords.
    + apply Forall_forall. intros u Hu. unfold getUsersByTenant in Hu.
      apply list_elem_of_In, filter_In in Hu as [Hu _]. by apply list_elem_of_In.
  - exists (omap (fun i => getUser i st) (userIdRange userId)). split; [done|]. split.
    + do 3 f_equal. induction (userIdRange userId) as [|i l IH]; [done|].
      csimpl. rewrite getUser_erasePasswords, IH.
      by destruct (getUser i st).
    + apply Forall_forall. intros u Hu.
      apply list_elem_of_omap in Hu as (i & _ & Hi).
      by apply first_where_Some in Hi as [Hin _].
Qed.

(** C10.  The user listing always answers 200, for one tenant as for all
    tenants, and every object of the answer is the row of a stored user
    with the property [password] deleted and the other properties kept;
    the answer is the same when every stored password is replaced. *)
Theorem listUsers_strips_password (userId tenantId : option Z) (st : State) :
  exists sanitizedUsers,
    listUsers userId tenantId st = (Json 200 sanitizedUsers, st)
    /\ Forall (fun object => object !! "password" = None) sanitizedUsers
    /\ Forall (fun object =>
                 exists user,
                   user ∈ rows (users st)
                   /\ object = delete "password" (userObject user)
                   /\ object !! "username" = Some (JStr (User.username user)))
              sanitizedUsers
    /\ fst (listUsers userId tenantId (erasePasswords st)) = Json 200 sanitizedUsers.
Proof.
  destruct (listUsers_run userId tenantId st) as (us & Hrun & Herased & Hstored).
  eexists. split; [exact Hrun|]. split; [|split].
  - apply Forall_fmap, Forall_forall. intros u _. apply withoutPassword_lookup.
  - apply Forall_fmap. eapply Forall_impl; [exact Hstored|].
    intros u Hu. exists u. split; [done|]. split; [done|].
    apply withoutPassword_lookup.
  - rewrite Herased. simpl. f_equal. rewrite map_map.
    apply map_ext. intros u. apply withoutPassword_erasePassword.
Qed.

(** * Further properties of the routes and the repository layer *)

(** ** Posting a response: what is touched, who is notified *)

(** X1.  No call of [postResponse] logs a mail or is answered 201: the
    notification loop and the reply come after [createResponse], which
    either is not reached, or is turned down by the store, or throws once
    the row is stored.  A call that stored a row is answered with that
    error. *)
Theorem postResponse_never_notifies
    (now : Time) (currentUser : User.t) (tenantQuestionId : Z)
    (body : ResponseBody.t) (st : State) :
  let out := postResponse now currentUser tenantQuestionId body st in
  outbox (snd out) = outbox st
  /\ statusCode (fst out) <> Some 201
  /\ (rows (responses (snd out)) <> rows (responses st) -> fst out = NextError NotIterable).
Proof.
  cbv zeta.
  destruct (postResponse_state now currentUser tenantQuestionId body st)
    as [[Hsame Hstatus] | (parsed & _ & Hrun)].
  - rewrite Hsame. split_and!; done.
  - rewrite Hrun. split_and!; done.
Qed.

(** X2.  Whatever the call, [postResponse] writes to the responses table
    and the mail log only, and to the table by appending at most one row
    for the addressed thread, by the caller, dated now: every other
    thread reads as before, the addressed thread keeps its responses in
    order with the new one last, and a call answered 400, 403 or 404
    changes nothing at all. *)
Theorem postResponse_appends_only
    (now : Time) (currentUser : User.t) (tenantQuestionId : Z)
    (body : ResponseBody.t) (st : State) :
  let out := postResponse now currentUser tenantQuestionId body st in
  users (snd out) = users st
  /\ tenants (snd out) = tenants st
  /\ domains (snd out) = domains st
  /\ questions (snd out) = questions st
  /\ tenantQuestions (snd out) = tenantQuestions st
  /\ attachments (snd out) = attachments st
  /\ uploads (snd out) = uploads st
  /\ (responses (snd out) = responses st
      \/ exists content,
           responses (snd out)
           = insert_row (fun id => Response.mk id tenantQuestionId (User.id currentUser)
                                               content now) (responses st))
  /\ (forall other,
        other <> tenantQuestionId ->
        getResponsesByTenantQuestion other (snd out)
        = getResponsesByTenantQuestion other st)
  /\ (exists new,
        getResponsesByTenantQuestion tenantQuestionId (snd out)
        = getResponsesByTenantQuestion tenantQuestionId st ++ new
        /\ (List.length new <= 1)%nat)
  /\ (statusCode (fst out) ∈ [Some 400; Some 403; Some 404] -> snd out = st).
Proof.
  cbv zeta.
  destruct (postResponse_state now currentUser tenantQuestionId body st)
    as [[Hsame _] | (parsed & _ & Hrun)].
  - rewrite Hsame. split_and!; try done.
    + by left.
    + exists []. rewrite app_nil_r. split; [done | simpl; lia].
  - rewrite Hrun. cbn [fst snd]. split_and!; try done.
    + right. by eexists.
    + intros other Hother. unfold getResponsesByTenantQuestion. simpl.
      rewrite List.filter_app. simpl.
      rewrite bool_decide_false by done. by rewrite app_nil_r.
    + eexists. unfold getResponsesByTenantQuestion. simpl.
      rewrite List.filter_app. simpl. rewrite bool_decide_true by done.
      split; [reflexivity | simpl; lia].
    + intros Hin. exfalso. simpl in Hin.
      repeat (apply elem_of_cons in Hin as [Hin|Hin]; [discriminate|]);
        by apply elem_of_nil in Hin.
Qed.

(** ** Reading a thread *)

(** X3.  [listResponses] never changes the state.  It answers 404 for an
    absent TenantQuestion and 403 to a caller who is neither Admin nor of
    the thread's tenant; otherwise it answers 200 with the empty list
    when the thread is empty, and as soon as the thread holds a response
    it fails with the "Method not implemented." of
    [getAttachmentsByResponse]. *)
Theorem listResponses_outcome (user : User.t) (tenantQuestionId : Z) (st : State) :
  snd (listResponses user tenantQuestionId st) = st
  /\ fst (listResponses user tenantQuestionId st)
     = match getTenantQuestion tenantQuestionId st with
       | None => Message 404 "Tenant question not found"
       | Some tq =>
         if bool_decide (User.role user = "Admin"
                         \/ User.tenantId user = Some (TenantQuestion.tenantId tq))
         then match getResponsesByTenantQuestion tenantQuestionId st with
              | [] => Json 200 []
              | _ :: _ => NextError (JsError "Method not implemented.")
              end
         else Message 403 "You don't have permission to access this data"
       end.
Proof.
  assert (Hrun :
    listResponses user tenantQuestionId st
    = (match getTenantQuestion tenantQuestionId st with
       | None => Message 404 "Tenant question not found"
       | Some tq =>
         if bool_decide (User.role user = "Admin"
                         \/ User.tenantId user = Some (TenantQuestion.tenantId tq))
         then match getResponsesByTenantQuestion tenantQuestionId st with
              | [] => Json 200 []
              | _ :: _ => NextError (JsError "Method not implemented.")
              end
         else Message 403 "You don't have permission to access this data"
       end, st)); [|by rewrite Hrun].
  unfold listResponses, route. unfold bind at 1. unfold gets at 1.
  destruct (getTenantQuestion tenantQuestionId st) as [tq|]; [|done].
  destruct (bool_decide (User.role user <> "Admin")
            && bool_decide (User.tenantId user <> Some (TenantQuestion.tenantId tq)))
    eqn:Hguard.
  - rewrite bool_decide_false; [done|].
    apply andb_true_iff in Hguard as [H1 H2].
    apply bool_decide_eq_true in H1, H2. tauto.
  - rewrite bool_decide_true.
    + unfold bind at 1. unfold gets at 1.
      by destruct (getResponsesByTenantQuestion tenantQuestionId st) as [|r rs].
    + apply andb_false_iff in Hguard as [H1|H1]; apply bool_decide_eq_false in H1.
      * left. by destruct (decide (User.role user = "Admin")).
      * right. by destruct (decide (User.tenantId user
                                    = Some (TenantQuestion.tenantId tq))).
Qed.

(** ** Assignment: repeating it, listing it *)

Lemma first_where_is_Some {A} (p : A -> bool) (t : Table A) (x : A) :
  x ∈ rows t -> p x = true -> is_Some (first_where p t).
Proof.
  intros Hx Hp. unfold first_where.
  assert (Hin : In x (List.filter p (rows t))).
  { apply filter_In. split; [by apply list_elem_of_In | done]. }
  destruct (List.filter p (rows t)); [destruct Hin | by eexists].
Qed.

(** What a call of the assignment route that changed the state has
    done. *)
Lemma assignQuestion_changed (now : Time) (body : InsertTenantQuestion.t) (st : State) :
  snd (assignQuestion now body st) <> st ->
  assignQuestion now body st
  = (NextError NotIterable,
     set_tenantQuestions
       (insert_row_with_id (InsertTenantQuestion.id body) (fun id =>
          TenantQuestion.mk id (InsertTenantQuestion.tenantId body)
            (InsertTenantQuestion.questionId body)
            (default (Some "Unanswered") (InsertTenantQuestion.status body)) now))
       st)
  /\ is_Some (getQuestion (InsertTenantQuestion.questionId body) st).
Proof.
  intros Hchanged.
  destruct (assignQuestion_state now body st)
    as [[Hsame _] | (Hpair & Hdate & Hid & Ht & Hq)]; [done|].
  split; [|done]. by apply assignQuestion_stored.
Qed.

(** X4.  Once an assignment has stored its row (the call itself then
    ends in the error the repository method throws after its insert),
    every further assignment of the same pair, whatever its status and
    whenever it is made, is answered 400 and changes nothing. *)
Theorem assignQuestion_twice
    (now now' : Time) (body body' : InsertTenantQuestion.t) (st : State) :
  InsertTenantQuestion.tenantId body' = InsertTenantQuestion.tenantId body ->
  InsertTenantQuestion.questionId body' = InsertTenantQuestion.questionId body ->
  snd (assignQuestion now body st) <> st ->
  assignQuestion now' body' (snd (assignQuestion now body st))
  = (Message 400 "This question is already assigned to the tenant",
     snd (assignQuestion now body st)).
Proof.
  intros Ht Hq Hchanged.
  destruct (assignQuestion_changed now body st Hchanged) as [Hrun _].
  rewrite Hrun. cbn [snd].
  unfold assignQuestion at 1. unfold route, bind, gets, ret.
  rewrite Ht, Hq.
  match goal with
  | |- context [getTenantQuestionByIds ?t ?q ?s] =>
    assert (Hfound : is_Some (getTenantQuestionByIds t q s))
  end.
  { unfold getTenantQuestionByIds.
    eapply first_where_is_Some.
    - cbn [tenantQuestions set_tenantQuestions]. rewrite rows_insert_row_with_id.
      apply elem_of_app. right. apply list_elem_of_singleton. reflexivity.
    - simpl. by rewrite !bool_decide_true. }
  destruct Hfound as [tq Htq]. by rewrite Htq.
Qed.

Lemma assignQuestion_twice_witness :
  assignQuestion 70 (InsertTenantQuestion.mk 5 1 (Some (Some "Answered")) None JUndefined)
    (snd (assignQuestion 50 (InsertTenantQuestion.mk 5 1 None None JUndefined) Example1.st))
  = (Message 400 "This question is already assigned to the tenant",
     snd (assignQuestion 50 (InsertTenantQuestion.mk 5 1 None None JUndefined) Example1.st)).
Proof.
  apply (assignQuestion_twice 50 70 (InsertTenantQuestion.mk 5 1 None None JUndefined)
           (InsertTenantQuestion.mk 5 1 (Some (Some "Answered")) None JUndefined)
           Example1.st); [reflexivity | reflexivity |].
  intros Hsame.
  apply (f_equal (fun st => List.length (rows (tenantQuestions st)))) in Hsame.
  vm_compute in Hsame. discriminate.
Defined.

(** X5.  The question list of a tenant holds rows of that tenant only,
    in table order, and reading it changes nothing.  After an assignment
    that stored its row, the list of that tenant is the former list
    followed by the new row joined with its question, which is on record,
    and the list of every other tenant is as before. *)
Theorem listTenantQuestions_after_assign
    (now : Time) (body : InsertTenantQuestion.t) (st : State) :
  snd (assignQuestion now body st) <> st ->
  let st' := snd (assignQuestion now body st) in
  let tenantId := InsertTenantQuestion.tenantId body in
  (forall tenant anyState,
      listTenantQuestions tenant anyState
      = (Json 200 (getTenantQuestionsWithDetails tenant anyState), anyState)
      /\ Forall (fun entry =>
                   TenantQuestion.tenantId (TenantQuestionWithDetails.tenantQuestion entry)
                   = tenant)
                (getTenantQuestionsWithDetails tenant anyState))
  /\ (exists q,
        getQuestion (InsertTenantQuestion.questionId body) st = Some q
        /\ getTenantQuestionsWithDetails tenantId st'
           = getTenantQuestionsWithDetails tenantId st
             ++ [TenantQuestionWithDetails.mk
                   (TenantQuestion.mk
                      (default (autoIncrement (tenantQuestions st))
                               (InsertTenantQuestion.id body))
                      tenantId
                      (InsertTenantQuestion.questionId body)
                      (default (Some "Unanswered") (InsertTenantQuestion.status body))
                      now)
                   (Some q)])
  /\ (forall other,
        other <> tenantId ->
        getTenantQuestionsWithDetails other st' = getTenantQuestionsWithDetails other st).
Proof.
  intros Hchanged. cbv zeta.
  destruct (assignQuestion_changed now body st Hchanged) as [Hrun [q Hq]].
  rewrite Hrun. cbn [snd]. split_and!.
  - intros tenant anyState. split; [reflexivity|].
    unfold getTenantQuestionsWithDetails. apply Forall_fmap, Forall_forall.
    intros tq Htq. simpl.
    apply list_elem_of_In, filter_In in Htq as [_ Htq].
    by apply bool_decide_eq_true in Htq.
  - exists q. split; [done|].
    unfold getTenantQuestionsWithDetails. cbn [tenantQuestions set_tenantQuestions].
    rewrite rows_insert_row_with_id, List.filter_app, map_app. simpl.
    rewrite bool_decide_true by done. simpl.
    change (getQuestion (InsertTenantQuestion.questionId body)
              (set_tenantQuestions _ st))
      with (getQuestion (InsertTenantQuestion.questionId body) st).
    rewrite Hq. reflexivity.
  - intros other Hother. unfold getTenantQuestionsWithDetails.
    cbn [tenantQuestions set_tenantQuestions].
    rewrite rows_insert_row_with_id, List.filter_app, map_app. simpl.
    rewrite bool_decide_false by done. simpl. by rewrite app_nil_r.
Qed.

Lemma listTenantQuestions_after_assign_witness :
  getTenantQuestionsWithDetails 7
    (snd (assignQuestion 50 (InsertTenantQuestion.mk 5 1 None None JUndefined) Example1.st))
  = getTenantQuestionsWithDetails 7 Example1.st.
Proof.
  apply (listTenantQuestions_after_assign 50
           (InsertTenantQuestion.mk 5 1 None None JUndefined) Example1.st);
    [|discriminate].
  intros Hsame.
  apply (f_equal (fun st => List.length (rows (tenantQuestions st)))) in Hsame.
  vm_compute in Hsame. discriminate.
Defined.

(** ** Registration *)

(** X6.  Registration stores nothing.  Under a taken username it answers
    400; under a free one it stops at [hashPassword], a name the routes
    file never declares, and hands the ReferenceError on before any user
    or assignment is created.  No registration is answered 201, and the
    state is never changed. *)
Theorem register_stores_nothing (now : Time) (body : InsertUser.t) (st : State) :
  snd (register now body st) = st
  /\ (is_Some (getUserByUsername (InsertUser.username body) st) ->
      fst (register now body st) = Send 400 "Username already exists")
  /\ (getUserByUsername (InsertUser.username body) st = None ->
      fst (register now body st)
      = NextError (ReferenceError "hashPassword is not defined"))
  /\ statusCode (fst (register now body st)) <> Some 201
  /\ register 10 Example2.frank Example2.unassigned
     = (NextError (ReferenceError "hashPassword is not defined"), Example2.unassigned).
Proof.
  rewrite !register_run. cbn [fst snd]. split_and!.
  - reflexivity.
  - by intros [u ->].
  - by intros ->.
  - by destruct (getUserByUsername _ st).
  - reflexivity.
Qed.

(** X7.  Registration keeps the usernames distinct: a taken name is
    answered 400 and changes nothing, and after any registration no two
    stored users share a username if none did before. *)
Theorem register_keeps_usernames_unique
    (now : Time) (body : InsertUser.t) (st : State) :
  uniqueUsernames st ->
  uniqueUsernames (snd (register now body st))
  /\ (is_Some (getUserByUsername (InsertUser.username body) st) ->
      register now body st = (Send 400 "Username already exists", st)).
Proof.
  intros Hunique. rewrite register_run. cbn [snd]. split; [done|].
  by intros [u ->].
Qed.

Lemma register_keeps_usernames_unique_witness :
  uniqueUsernames (snd (register 10 Example2.frank Example2.unassigned)).
Proof.
  apply (register_keeps_usernames_unique 10 Example2.frank Example2.unassigned).
  unfold uniqueUsernames. simpl.
  repeat (apply NoDup_cons; split;
          [rewrite ?elem_of_cons, elem_of_nil; intros Hin;
           repeat (destruct Hin as [Hin|Hin]; [discriminate|]); exact Hin|]).
  apply NoDup_nil. exact I.
Defined.

(** ** File storage *)

(** X10.  In the upload directory, a file saved under a name of one path
    segment reads back as the bytes that were saved and reports their
    number as its size, while every file of another such name reads as
    before; deleting the stored file answers [true], after which reading
    it fails with ENOENT, and deleting such a name that is not stored
    answers [false] and changes nothing. *)
Theorem file_storage_lifecycle
    (extname : string -> string) (uuid : string) (buffer : list Byte.byte)
    (originalFilename mimeType : string) (st : State) :
  let name := uuid +:+ extname originalFilename in
  let saved := snd (saveFile extname uuid buffer originalFilename mimeType st) in
  plainName name ->
  fst (saveFile extname uuid buffer originalFilename mimeType st)
  = Ok (SavedFileInfo.mk name originalFilename mimeType (Z.of_nat (List.length buffer)))
  /\ getFile name saved = (Ok buffer, saved)
  /\ (forall other,
        plainName other -> other <> name ->
        fst (getFile other saved) = fst (getFile other st))
  /\ fst (deleteFile name saved) = Ok true
  /\ fst (getFile name (snd (deleteFile name saved))) = Throw (FsError "ENOENT")
  /\ (forall other,
        plainName other -> other <> name ->
        fst (getFile other (snd (deleteFile name saved))) = fst (getFile other st))
  /\ (forall missing,
        plainName missing -> uploads st !! missing = None ->
        deleteFile missing st = (Ok false, st)
        /\ fst (getFile missing st) = Throw (FsError "ENOENT")).
Proof.
  cbv zeta. intros _. split_and!.
  - reflexivity.
  - unfold getFile. simpl. by rewrite lookup_insert_eq.
  - intros other _ Hother. unfold getFile. simpl.
    rewrite lookup_insert_ne by done. by destruct (uploads st !! other).
  - unfold deleteFile. simpl. by rewrite lookup_insert_eq.
  - unfold deleteFile, getFile. simpl. rewrite lookup_insert_eq. simpl.
    by rewrite lookup_delete_eq.
  - intros other _ Hother. unfold deleteFile, getFile. simpl.
    rewrite lookup_insert_eq. simpl.
    rewrite lookup_delete_ne, lookup_insert_ne by done.
    by destruct (uploads st !! other).
  - intros missing _ Hmissing. unfold deleteFile, getFile. by rewrite Hmissing.
Qed.

Lemma file_storage_lifecycle_witness :
  getFile "0b5e.png"
    (snd (saveFile (fun _ => ".png") "0b5e" (UploadedFile.buffer Example2.png)
                   "diagram.png" "image/png" Example1.st))
  = (Ok (UploadedFile.buffer Example2.png),
     snd (saveFile (fun _ => ".png") "0b5e" (UploadedFile.buffer Example2.png)
                   "diagram.png" "image/png" Example1.st)).
Proof.
  apply (file_storage_lifecycle (fun _ => ".png") "0b5e"
           (UploadedFile.buffer Example2.png) "diagram.png" "image/png" Example1.st).
  unfold plainName. split_and!; try discriminate.
  - simpl. lia.
  - simpl. repeat constructor; discriminate.
Defined.

(** X11.  [attachFile] writes for the author of the response or an
    administrator only: whatever the call, either the state is left as it
    was, or the response exists, the caller is its author or an
    administrator, the file passed the filter and the size limit, and the
    only change is that file in the upload directory. *)
Theorem attachFile_writes_for_author_or_admin_only
    (extname : string -> string) (uuid : string) (user : User.t) (responseId : Z)
    (file : option UploadedFile.t) (st : State) :
  snd (attachFile extname uuid user responseId file st) = st
  \/ exists f response,
       file = Some f
       /\ upload_single (Some f) = Ok (Some f)
       /\ getResponse responseId st = Some response
       /\ (User.id user = Response.userId response \/ User.role user = "Admin")
       /\ snd (attachFile extname uuid user responseId file st)
          = set_uploads (insert (uuid +:+ extname (UploadedFile.originalname f))
                                (UploadedFile.buffer f)) st.
Proof.
  unfold attachFile.
  destruct (upload_single file) as [[f|]|e] eqn:Hupload; [|by left..].
  assert (file = Some f) as ->.
  { destruct file as [g|]; [|discriminate]. revert Hupload. unfold upload_single.
    destruct (fileFilter g) as [[]|]; [|discriminate..].
    destruct (_ <=? _); [discriminate|]. by intros [= ->]. }
  unfold route, bind, gets, ret.
  destruct (getResponse responseId st) as [response|] eqn:Hresponse; [|by left].
  destruct (bool_decide (User.id user <> Response.userId response)
            && bool_decide (User.role user <> "Admin")) eqn:Hguard; [by left|].
  right. exists f, response. split_and!; try done.
  apply andb_false_iff in Hguard as [Hg|Hg]; apply bool_decide_eq_false in Hg.
  - left. by destruct (decide (User.id user = Response.userId response)).
  - right. by destruct (decide (User.role user = "Admin")).
Qed.

(** ** Default domains *)

(** X12.  [initializeDefaultDomains] never fails and touches a domain
    table that holds a row not at all; on an empty table it inserts the
    five default domains with consecutive ids; so running it again
    changes nothing, and after it the table is never empty. *)
Theorem initializeDefaultDomains_idempotent (st : State) :
  let st' := snd (initializeDefaultDomains st) in
  fst (initializeDefaultDomains st) = Ok tt
  /\ (rows (domains st) <> [] -> st' = st)
  /\ (rows (domains st) = [] ->
      map Domain.name (rows (domains st'))
      = ["Access Reviews"; "Generic Governance"; "Application Onboarding"; "SOD";
         "AD & Directory Services"]
      /\ map Domain.id (rows (domains st'))
         = map (fun i => autoIncrement (domains st) + i) [0; 1; 2; 3; 4])
  /\ rows (domains st') <> []
  /\ initializeDefaultDomains st' = (Ok tt, st').
Proof.
  cbv zeta.
  assert (Hrun :
    initializeDefaultDomains st
    = (Ok tt,
       match rows (domains st) with
       | [] =>
         set_domains (fun t =>
           foldl (fun t d =>
                    insert_row (fun id => Domain.mk id d.1.1 (Some d.1.2) (Some d.2)) t)
                 t defaultDomains) st
       | _ :: _ => st
       end)).
  { unfold initializeDefaultDomains, bind, gets, modify, ret.
    by destruct (rows (domains st)). }
  rewrite Hrun. cbn [fst snd].
  destruct (rows (domains st)) as [|d ds] eqn:Hrows.
  - split_and!; try done.
    + intros _. simpl. rewrite Hrows. simpl.
      split; [reflexivity|]. repeat (apply (f_equal2 cons); [lia|]). reflexivity.
    + simpl. rewrite Hrows. discriminate.
    + unfold initializeDefaultDomains, bind, gets, modify, ret. simpl.
      by rewrite Hrows.
  - split_and!; try done; rewrite ?Hrun, ?Hrows; done.
Qed.

(** ** The question list of a domain *)

Lemma insert_sorted_ext_in {A} (c c' : A -> A -> Z) (x : A) (l : list A) :
  (forall b, b ∈ l -> c x b = c' x b) ->
  insert_sorted c x l = insert_sorted c' x l.
Proof.
  induction l as [|y l IH]; intros Hagree; [done|].
  simpl. rewrite (Hagree y) by by left.
  destruct (c' x y <=? 0); [done|]. f_equal. apply IH. intros b Hb. apply Hagree. by right.
Qed.

Lemma sort_ext_in {A} (c c' : A -> A -> Z) (l : list A) :
  (forall a b, a ∈ l -> b ∈ l -> c a b = c' a b) ->
  sort c l = sort c' l.
Proof.
  induction l as [|x l IH]; intros Hagree; [done|].
  cbn [sort foldr]. fold (sort c l). fold (sort c' l).
  rewrite IH by (intros a b Ha Hb; apply Hagree; by right).
  apply insert_sorted_ext_in. intros b Hb. apply Hagree; [by left|].
  right. by rewrite <- (sort_Permutation c' l).
Qed.

Lemma StronglySorted_weaken {A} (R R' : A -> A -> Prop) (l : list A) :
  (forall a b, R a b -> R' a b) -> StronglySorted R l -> StronglySorted R' l.
Proof.
  intros Himpl. induction 1 as [|x l Hsorted IH Hall]; constructor; [exact IH|].
  eapply Forall_impl; [exact Hall | apply Himpl].
Qed.

(** X13.  When every question carries one of the three statuses, the
    list a domain section shows is a rearrangement of the questions with
    Unanswered first, then In Progress, then Answered, questions of one
    status keeping their order; collapsed it shows the first three of
    them, expanded all. *)
Theorem sortedQuestions_by_status (questions : list TenantQuestionWithDetails.t) :
  Forall (fun q => is_Some (statusOrder (TenantQuestion.status
                                           (TenantQuestionWithDetails.tenantQuestion q))))
         questions ->
  sortedQuestions questions ≡ₚ questions
  /\ StronglySorted
       (fun a b =>
          forall x y,
            statusOrder (TenantQuestion.status
                           (TenantQuestionWithDetails.tenantQuestion a)) = Some x ->
            statusOrder (TenantQuestion.status
                           (TenantQuestionWithDetails.tenantQuestion b)) = Some y ->
            x <= y)
       (sortedQuestions questions)
  /\ (forall rank,
        List.filter
          (fun q => bool_decide
                      (statusOrder (TenantQuestion.status
                                      (TenantQuestionWithDetails.tenantQuestion q))
                       = Some rank))
          (sortedQuestions questions)
        = List.filter
            (fun q => bool_decide
                        (statusOrder (TenantQuestion.status
                                        (TenantQuestionWithDetails.tenantQuestion q))
                         = Some rank))
            questions)
  /\ displayedQuestions true questions = sortedQuestions questions
  /\ displayedQuestions false questions = take 3 (sortedQuestions questions)
  /\ List.length (displayedQuestions false questions)
     = Nat.min 3 (List.length questions).
Proof.
  intros Hvalid.
  set (rank := fun q => default 0 (statusOrder (TenantQuestion.status
                                      (TenantQuestionWithDetails.tenantQuestion q)))).
  set (key := fun q => - rank q).
  set (compare' := fun a b : TenantQuestionWithDetails.t => key b - key a).
  assert (Hsort : sortedQuestions questions = sort compare' questions).
  { unfold sortedQuestions. apply sort_ext_in. intros a b Ha Hb.
    rewrite Forall_forall in Hvalid.
    destruct (Hvalid a Ha) as [x Hx], (Hvalid b Hb) as [y Hy].
    unfold compareStatus, compare', key, rank. rewrite Hx, Hy. simpl. lia. }
  assert (Hperm : sortedQuestions questions ≡ₚ questions).
  { rewrite Hsort. apply sort_Permutation. }
  split_and!.
  - exact Hperm.
  - rewrite Hsort.
    eapply StronglySorted_weaken;
      [|apply (sort_StronglySorted compare' key); reflexivity].
    intros a b Hle x y Hx Hy. unfold key, rank in Hle. rewrite Hx, Hy in Hle.
    simpl in Hle. lia.
  - intros r. rewrite Hsort.
    assert (Hkey : forall q, q ∈ questions ->
              bool_decide (statusOrder (TenantQuestion.status
                                          (TenantQuestionWithDetails.tenantQuestion q))
                           = Some r)
              = (key q =? - r)).
    { intros q Hq. rewrite Forall_forall in Hvalid.
      destruct (Hvalid q Hq) as [x Hx]. unfold key, rank. rewrite Hx. simpl.
      destruct (decide (x = r)) as [->|Hne].
      - rewrite bool_decide_true by done. symmetry. by apply Z.eqb_eq.
      - rewrite bool_decide_false by congruence. symmetry. apply Z.eqb_neq. lia. }
    rewrite (List.filter_ext_in _ (fun q => key q =? - r)).
    + rewrite (sort_stable compare' key) by reflexivity.
      apply List.filter_ext_in. intros q Hq. symmetry. apply Hkey.
      by apply list_elem_of_In.
    + intros q Hq. apply Hkey. apply list_elem_of_In in Hq.
      by rewrite (sort_Permutation compare') in Hq.
  - reflexivity.
  - reflexivity.
  - unfold displayedQuestions. rewrite length_take.
    apply Permutation_length in Hperm. fold (@List.length TenantQuestionWithDetails.t).
    lia.
Qed.

Lemma sortedQuestions_by_status_witness :
  sortedQuestions
    [TenantQuestionWithDetails.mk (TenantQuestion.mk 1 7 1 (Some "Answered") 0) None;
     TenantQuestionWithDetails.mk (TenantQuestion.mk 2 7 2 (Some "Unanswered") 0) None]
  ≡ₚ [TenantQuestionWithDetails.mk (TenantQuestion.mk 1 7 1 (Some "Answered") 0) None;
      TenantQuestionWithDetails.mk (TenantQuestion.mk 2 7 2 (Some "Unanswered") 0) None].
Proof.
  apply (sortedQuestions_by_status
           [TenantQuestionWithDetails.mk (TenantQuestion.mk 1 7 1 (Some "Answered") 0)
                                         None;
            TenantQuestionWithDetails.mk (TenantQuestion.mk 2 7 2 (Some "Unanswered") 0)
                                         None]).
  repeat constructor; by eexists.
Defined.

(** ** Relative times *)

(** X14.  [formatRelativeTime] shows "just now" for every date less than
    a minute old, a date in the future included; from one minute on it
    counts whole minutes, 1 to 59, then whole hours, 1 to 23, then whole
    days, 1 to 6, with the singular exactly for the count 1; from seven
    days on, and for a string that is no date, it shows the locale
    date. *)
Theorem formatRelativeTime_units
    (toLocaleDateString : option Time -> string) (now d : Time) :
  let shown := formatRelativeTime toLocaleDateString now (Some d) in
  let age := now - d in
  (age < 60000 -> shown = "just now")
  /\ (60000 <= age < 3600000 ->
      exists minutes,
        1 <= minutes <= 59
        /\ 60000 * minutes <= age < 60000 * (minutes + 1)
        /\ shown = pretty minutes +:+ " "
                   +:+ (if bool_decide (minutes = 1) then "minute" else "minutes")
                   +:+ " ago")
  /\ (3600000 <= age < 86400000 ->
      exists hours,
        1 <= hours <= 23
        /\ 3600000 * hours <= age < 3600000 * (hours + 1)
        /\ shown = pretty hours +:+ " "
                   +:+ (if bool_decide (hours = 1) then "hour" else "hours") +:+ " ago")
  /\ (86400000 <= age < 604800000 ->
      exists days,
        1 <= days <= 6
        /\ 86400000 * days <= age < 86400000 * (days + 1)
        /\ shown = pretty days +:+ " "
                   +:+ (if bool_decide (days = 1) then "day" else "days") +:+ " ago")
  /\ (604800000 <= age -> shown = toLocaleDateString (Some d))
  /\ formatRelativeTime toLocaleDateString now None = toLocaleDateString None.
Proof.
  cbv zeta. unfold formatRelativeTime.
  set (diff := (now - d) / 1000).
  assert (Hdiff : 1000 * diff <= now - d < 1000 * diff + 1000).
  { subst diff. pose proof (Z.div_mod (now - d) 1000 ltac:(lia)).
    pose proof (Z.mod_pos_bound (now - d) 1000 ltac:(lia)). lia. }
  assert (Hunit : forall u, 0 < u ->
            u * (diff / u) <= diff < u * (diff / u) + u).
  { intros u Hu. pose proof (Z.div_mod diff u ltac:(lia)).
    pose proof (Z.mod_pos_bound diff u Hu). lia. }
  split_and!.
  - intros Hage. destruct (Z.ltb_spec diff 60); [done | lia].
  - intros Hage.
    destruct (Z.ltb_spec diff 60); [lia|]. destruct (Z.ltb_spec diff 3600); [|lia].
    exists (diff / 60). pose proof (Hunit 60 ltac:(lia)). split_and!; try lia. done.
  - intros Hage.
    destruct (Z.ltb_spec diff 60); [lia|]. destruct (Z.ltb_spec diff 3600); [lia|].
    destruct (Z.ltb_spec diff 86400); [|lia].
    exists (diff / 3600). pose proof (Hunit 3600 ltac:(lia)). split_and!; try lia. done.
  - intros Hage.
    destruct (Z.ltb_spec diff 60); [lia|]. destruct (Z.ltb_spec diff 3600); [lia|].
    destruct (Z.ltb_spec diff 86400); [lia|]. destruct (Z.ltb_spec diff 604800); [|lia].
    exists (diff / 86400). pose proof (Hunit 86400 ltac:(lia)). split_and!; try lia. done.
  - intros Hage.
    destruct (Z.ltb_spec diff 60); [lia|]. destruct (Z.ltb_spec diff 3600); [lia|].
    destruct (Z.ltb_spec diff 86400); [lia|]. destruct (Z.ltb_spec diff 604800); [lia|].
    done.
  - reflexivity.
Qed.

(** ** The response form and the server *)

Lemma append_cons (c : ascii) (s t : string) : String c s +:+ t = String c (s +:+ t).
Proof. reflexivity. Qed.

Lemma append_empty_r (s : string) : s +:+ "" = s.
Proof. induction s as [|c s IH]; [done | by rewrite append_cons, IH]. Qed.

Lemma append_assoc (s t u : string) : (s +:+ t) +:+ u = s +:+ t +:+ u.
Proof. induction s as [|c s IH]; [done | by rewrite !append_cons, IH]. Qed.

Lemma reverse_string_append (acc s : string) :
  reverse_string acc s = reverse_string "" s +:+ acc.
Proof.
  revert acc. induction s as [|c s IH]; intros acc; [done|].
  simpl. rewrite (IH (String c acc)), (IH (String c "")).
  by rewrite append_assoc.
Qed.

Lemma reverse_string_app (s t : string) :
  reverse_string "" (s +:+ t) = reverse_string "" t +:+ reverse_string "" s.
Proof.
  induction s as [|c s IH]; [by rewrite append_empty_r|].
  rewrite append_cons. cbn [reverse_string].
  rewrite (reverse_string_append (String c "")), IH.
  rewrite (reverse_string_append (String c "") s). by rewrite append_assoc.
Qed.

Lemma reverse_string_involutive (s : string) :
  reverse_string "" (reverse_string "" s) = s.
Proof.
  induction s as [|c s IH]; [done|].
  cbn [reverse_string].
  rewrite (reverse_string_append (String c "")), reverse_string_app, IH.
  reflexivity.
Qed.

Lemma madeOf_impl (P Q : string -> Prop) (s : string) :
  (forall c, P c -> Q c) -> madeOf P s -> madeOf Q s.
Proof. intros HPQ. induction 1; constructor; auto. Qed.

Lemma madeOf_append (P : string -> Prop) (s t : string) :
  madeOf P s -> madeOf P t -> madeOf P (s +:+ t).
Proof.
  intros Hs Ht. induction Hs as [|c s Hc Hs IH]; [done|].
  rewrite append_assoc. by constructor.
Qed.

Lemma madeOf_reverse (P : string -> Prop) (s : string) :
  madeOf (fun c => P (reverse_string "" c)) s -> madeOf P (reverse_string "" s).
Proof.
  induction 1 as [|c s Hc Hs IH]; [constructor|].
  rewrite reverse_string_app. apply madeOf_append; [done|].
  rewrite <- (append_empty_r (reverse_string "" c)). constructor; [done | constructor].
Qed.

(** What [trimWith] removes is made of the characters it is told to
    remove. *)
Lemma trimWith_split (space : string -> bool) (s : string) :
  exists removed,
    madeOf (fun c => space c = true) removed /\ s = removed +:+ trimWith space s.
Proof.
  remember (String.length s) as n eqn:Hn. revert s Hn.
  induction n as [n IH] using lt_wf_ind. intros s Hn.
  destruct s as [|a s1]; [exists ""; split; [constructor | done]|].
  cbn [trimWith]. destruct (space (String a "")) eqn:H1.
  { destruct (IH (String.length s1) ltac:(simpl in Hn; lia) s1 eq_refl)
      as (removed & Hremoved & Heq).
    exists (String a "" +:+ removed). split; [by constructor|].
    rewrite !append_cons. by f_equal. }
  destruct s1 as [|b s2]; [exists ""; split; [constructor | done]|].
  destruct (space (String a (String b ""))) eqn:H2.
  { destruct (IH (String.length s2) ltac:(simpl in Hn; lia) s2 eq_refl)
      as (removed & Hremoved & Heq).
    exists (String a (String b "") +:+ removed). split; [by constructor|].
    rewrite !append_cons. by do 2 f_equal. }
  destruct s2 as [|c s3]; [exists ""; split; [constructor | done]|].
  destruct (space (String a (String b (String c "")))) eqn:H3.
  { destruct (IH (String.length s3) ltac:(simpl in Hn; lia) s3 eq_refl)
      as (removed & Hremoved & Heq).
    exists (String a (String b (String c "")) +:+ removed). split; [by constructor|].
    rewrite !append_cons. by do 3 f_equal. }
  exists "". split; [constructor | done].
Qed.

Lemma trimWith_empty (space : string -> bool) (s : string) :
  trimWith space s = "" -> madeOf (fun c => space c = true) s.
Proof.
  intros Hempty. destruct (trimWith_split space s) as (removed & Hremoved & Heq).
  rewrite Hempty, append_empty_r in Heq. by subst.
Qed.

Lemma isWhiteSpace_elem_of (c : string) : isWhiteSpace c = true <-> c ∈ whiteSpace.
Proof.
  unfold isWhiteSpace. rewrite existsb_exists. split.
  - intros (w & Hin & Heq). apply String.eqb_eq in Heq. subst. by apply list_elem_of_In.
  - intros Hin. exists c. split; [by apply list_elem_of_In | apply String.eqb_refl].
Qed.

Lemma trimStart_whiteSpace (c s : string) :
  c ∈ whiteSpace -> trimStart (c +:+ s) = trimStart s.
Proof.
  unfold whiteSpace. intros Hin.
  repeat (apply elem_of_cons in Hin as [->|Hin]; [reflexivity|]).
  by apply elem_of_nil in Hin.
Qed.

Lemma trim_empty (s : string) : trim s = "" <-> whiteSpaceOnly s.
Proof.
  unfold whiteSpaceOnly. split.
  - unfold trim, trimEnd. intros Hempty.
    apply (f_equal (reverse_string "")) in Hempty.
    rewrite reverse_string_involutive in Hempty. simpl in Hempty.
    apply trimWith_empty in Hempty.
    apply (madeOf_reverse (fun c => isWhiteSpace c = true)) in Hempty.
    rewrite reverse_string_involutive in Hempty.
    destruct (trimWith_split isWhiteSpace s) as (removed & Hremoved & Heq).
    fold (trimStart s) in Heq. rewrite Heq.
    apply madeOf_append;
      (eapply madeOf_impl; [|eassumption]); intros c; apply isWhiteSpace_elem_of.
  - intros Hws. unfold trim.
    assert (Hstart : trimStart s = "").
    { induction Hws as [|c s Hc Hs IH]; [done|]. by rewrite trimStart_whiteSpace. }
    by rewrite Hstart.
Qed.

(** X15.  The response form sends nothing exactly when the content is
    made of white space only, the empty content and the white space
    beyond ASCII included; otherwise it sends the content as typed,
    untrimmed, and no other field. *)
Theorem handleSubmit_blank_iff (content : string) :
  (handleSubmit content = None <-> whiteSpaceOnly content)
  /\ (handleSubmit content <> None ->
      handleSubmit content
      = Some (ResponseBody.mk JUndefined JUndefined (JStr content)))
  /\ handleSubmit (utf8 [32; 194; 160; 226; 128; 168; 9]) = None
  /\ handleSubmit " a " = Some (ResponseBody.mk JUndefined JUndefined (JStr " a ")).
Proof.
  split_and!; [| |reflexivity..].
  - unfold handleSubmit. rewrite <- trim_empty. by case_bool_decide.
  - unfold handleSubmit. by case_bool_decide.
Qed.

(** X16.  Whatever the form sends, the server turns down: the body holds
    the content only, the insert schema asks for [tenantQuestionId] and
    [userId] as well, so [postResponse] answers 400 "Validation error"
    for every caller and thread and stores nothing. *)
Theorem handleSubmit_request_rejected
    (content : string) (body : ResponseBody.t)
    (now : Time) (currentUser : User.t) (tenantQuestionId : Z) (st : State) :
  handleSubmit content = Some body ->
  postResponse now currentUser tenantQuestionId body st
  = (Message 400 "Validation error", st).
Proof.
  unfold handleSubmit. case_bool_decide; [discriminate|]. by intros [= <-].
Qed.

Lemma handleSubmit_request_rejected_witness :
  postResponse 100 Example1.customer7 1
               (ResponseBody.mk JUndefined JUndefined (JStr "We certify quarterly."))
               Example1.st
  = (Message 400 "Validation error", Example1.st).
Proof.
  apply (handleSubmit_request_rejected "We certify quarterly.").
  reflexivity.
Defined.
